(** * vt-py: the VirusTotal API client ([vt/client.py])

    A shallow embedding of [vt/client.py].  Python values are a small
    inductive type, exceptions are an error type, and every coroutine
    ([async def]) is a computation in a state-and-error monad over an
    explicit [World]: the store of HTTP sessions, the network and the
    log of the requests sent so far. *)

From Stdlib Require Import ZArith String List Floats.SpecFloat Lia.
From stdpp Require Import gmap strings list.

Set Warnings "-register-all".

(** ** Python values *)

(** What [json.loads] can produce, which is also everything this client
    ever inspects: [None], booleans, integers, floats, strings, lists
    and dictionaries with string keys. *)
Inductive pyval : Type :=
  | PyNone
  | PyBool (b : bool)
  | PyInt (n : Z)
  | PyFloat (f : spec_float)
  | PyStr (s : string)
  | PyList (l : list pyval)
  | PyDict (d : gmap string pyval).

(** Truth value of an object, as tested by [if x:] and [not x]. *)
Definition truthy (v : pyval) : bool :=
  match v with
  | PyNone => false
  | PyBool b => b
  | PyInt n => negb (n =? 0)%Z
  | PyFloat (S754_zero _) => false
  | PyFloat _ => true
  | PyStr s => negb (String.eqb s "")
  | PyList l => match l with [] => false | _ => true end
  | PyDict d => negb (size d =? 0)%nat
  end.

(** [class APIError(Exception)]: [__init__] stores its two arguments. *)
Record APIError : Type := APIError__init__ { code : pyval; message : pyval }.

(** Exceptions.  [ExValueError] stands for [ValueError] and its subclasses
    (such as [json.JSONDecodeError]) and carries [str(err)];
    [ExTransport] stands for the errors of aiohttp itself (connection
    failures, [ContentTypeError] of a body that is not JSON). *)
Inductive exn : Type :=
  | ExAPIError (e : APIError)
  | ExValueError (msg : string)
  | ExKeyError (key : string)
  | ExTypeError
  | ExAttributeError
  | ExRecursionError
  | ExRuntimeError (msg : string)
  | ExTransport (msg : string)
  | ExRetriesExhausted.

(** The outcome of evaluating an expression: a value or a raised exception. *)
Inductive result (A : Type) : Type :=
  | Return (a : A)
  | Raise (x : exn).
Arguments Return {A} a.
Arguments Raise {A} x.

#[global] Instance result_ret : MRet result := fun A a => Return a.
#[global] Instance result_bind : MBind result := fun A B f m =>
  match m with
  | Return a => f a
  | Raise x => Raise x
  end.

(** ** Operations on Python values *)

(** [obj.get(key)]: only dictionaries have a [get] method. *)
Definition py_get (obj : pyval) (key : string) : result pyval :=
  match obj with
  | PyDict d => Return (default PyNone (d !! key))
  | _ => Raise ExAttributeError
  end.

(** [obj[key]] for a string [key]: a dictionary looks the key up, a string
    or a list refuses a string index, the other values are not
    subscriptable. *)
Definition py_getitem (obj : pyval) (key : string) : result pyval :=
  match obj with
  | PyDict d =>
      match d !! key with
      | Some v => Return v
      | None => Raise (ExKeyError key)
      end
  | _ => Raise ExTypeError
  end.

Definition is_str (key : string) (v : pyval) : bool :=
  match v with
  | PyStr s => String.eqb s key
  | _ => false
  end.

(** [key in obj] for a string [key]: key membership for a dictionary,
    element membership for a list, substring test for a string; the
    other values are not iterable. *)
Definition py_contains (key : string) (obj : pyval) : result bool :=
  match obj with
  | PyDict d => Return (bool_decide (is_Some (d !! key)))
  | PyList l => Return (existsb (is_str key) l)
  | PyStr s =>
      Return (match String.index 0 key s with Some _ => true | None => false end)
  | _ => Raise ExTypeError
  end.

(** ** HTTP: responses, sessions and the world *)

(** An [aiohttp.ClientResponse] whose body has arrived: [status], the
    outcome of [await response.json()] (a parsed value, or the exception
    it raises when the body is not JSON) and [await response.text()]. *)
Record Response : Type := {
  status : Z;
  json : result pyval;
  text : string
}.

Record Request : Type := {
  url : string;
  params : option (gmap string pyval)
}.

(** An [aiohttp.ClientSession]: its default headers and whether it has
    been closed. *)
Record Session : Type := {
  headers : gmap string string;
  closed : bool
}.

(** The world a client runs in.  Sessions are objects on the heap,
    referred to by their index in [sessions]; [network n rq] is what the
    [n]-th request sent, [rq], comes back with. *)
Record World : Type := {
  sessions : list Session;
  network : nat -> Request -> result Response;
  log : list Request
}.

(** A coroutine: run against a world, it returns or raises, and leaves a
    world behind. *)
Definition Async (A : Type) : Type := World -> result A * World.

#[global] Instance Async_ret : MRet Async := fun A a w => (Return a, w).
#[global] Instance Async_bind : MBind Async := fun A B f m w =>
  match m w with
  | (Return a, w') => f a w'
  | (Raise x, w') => (Raise x, w')
  end.

Definition raise {A : Type} (x : exn) : Async A := fun w => (Raise x, w).

(** An expression without effect on the world. *)
Definition pure {A : Type} (r : result A) : Async A := fun w => (r, w).

(** [try: body except ValueError as err: handler(str(err))]. *)
Definition try_except_ValueError {A : Type}
    (body : Async A) (handler : string -> Async A) : Async A := fun w =>
  match body w with
  | (Raise (ExValueError msg), w') => handler msg w'
  | other => other
  end.

(** [asyncio.get_event_loop().run_until_complete(coro)] runs the coroutine
    to its end and hands back its outcome. *)
Definition run_until_complete {A : Type} (coro : Async A) : Async A := coro.

(** [aiohttp.ClientSession(headers=...)]: a new open session on the heap. *)
Definition ClientSession (hdrs : gmap string string) : Async nat := fun w =>
  (Return (length (sessions w)),
   {| sessions := sessions w ++ [{| headers := hdrs; closed := false |}];
      network := network w; log := log w |}).

(** The world once the request [rq] has been sent. *)
Definition send (rq : Request) (w : World) : World :=
  {| sessions := sessions w; network := network w; log := log w ++ [rq] |}.

(** [session.get(url, params=params)]: a closed session refuses with
    [RuntimeError('Session is closed')]; an open one sends the request. *)
Definition session_get (s : nat) (u : string)
    (p : option (gmap string pyval)) : Async Response := fun w =>
  match sessions w !! s with
  | Some ss =>
      if closed ss then (Raise (ExRuntimeError "Session is closed"), w)
      else
        let rq := {| url := u; params := p |} in
        (network w (length (log w)) rq, send rq w)
  | None => (Raise (ExRuntimeError "Session is closed"), w)
  end.

(** [session.close()]. *)
Definition session_close (s : nat) : Async unit := fun w =>
  (Return tt,
   {| sessions := alter (fun ss => {| headers := headers ss; closed := true |})
                        s (sessions w);
      network := network w; log := log w |}).

(** ** [vt/client.py] *)

Definition _API_HOST : string := "https://www.virustotal.com".

Definition _ENDPOINT_PREFIX : string := "/api/v3".

(** ['{agent}; vtpy {version}; gzip'.format_map(...)] *)
Definition _USER_AGENT_FMT (agent version : string) : string :=
  agent +:+ "; vtpy " +:+ version +:+ "; gzip".

(** [APIError.from_dict]: [cls(dict_error['code'], dict_error.get('message'))]. *)
Definition from_dict (dict_error : pyval) : result APIError :=
  c ← py_getitem dict_error "code";
  m ← py_get dict_error "message";
  mret (APIError__init__ c m).

Inductive FeedType : Type := FILES.

Definition FeedType_value (t : FeedType) : string :=
  match t with FILES => "files" end.

Record Client : Type := {
  _host : string;
  _apikey : string;
  _agent : string;
  _session : nat
}.

(** [str(apikey)] for an [apikey] that is a string or [None]. *)
Definition str_opt (s : option string) : string := default "None" s.

(** [s or d] for an [s] that is a string or [None]: the empty string is
    as false as [None]. *)
Definition str_or (s : option string) (d : string) : string :=
  match s with
  | None | Some "" => d
  | Some h => h
  end.

Section client.

(** [__version__], from [vt/version.py]. *)
Variable __version__ : string.

(** [Client.__init__(apikey, agent, host)].  [not apikey] holds of [None]
    and of the empty string. *)
Definition __init__ (apikey : option string) (agent : string)
    (host : option string) : Async Client :=
  match apikey with
  | None | Some "" =>
      raise (ExValueError ("Expecting API key, got: " +:+ str_opt apikey))
  | Some k =>
      s ← ClientSession
            (<["X-Apikey" := k]>
               (<["Accept-Encoding" := "gzip"]>
                  {["User-Agent" := _USER_AGENT_FMT agent __version__]}));
      mret {| _host := str_or host _API_HOST;
              _apikey := k; _agent := agent; _session := s |}
  end.

End client.

Definition _full_url (self : Client) (path : string) : string :=
  if String.prefix "http" path then path
  else _host self +:+ _ENDPOINT_PREFIX +:+ path.

(** [Client.get_error].  Its awaits, [response.json()] and
    [response.text()], read the body of a response that has arrived and
    leave the world alone, so the coroutine is a function of the
    response. *)
Definition get_error (self : Client) (response : Response)
    : result (option APIError) :=
  if (status response =? 200)%Z then Return None
  else if ((400 <=? status response) && (status response <=? 499))%Z then
    json_resp ← json response;
    error ← py_get json_resp "error";
    if truthy error then
      e ← from_dict error;
      Return (Some e)
    else
      Return (Some (APIError__init__ (PyStr "ClientError")
                                    (PyStr (text response))))
  else
    Return (Some (APIError__init__ (PyStr "ServerError")
                                  (PyStr (text response)))).

Definition get_async (self : Client) (path : string)
    (params : option (gmap string pyval)) : Async Response :=
  session_get (_session self) (_full_url self path) params.

Definition get_json_response_async (self : Client) (path : string)
    (params : option (gmap string pyval)) : Async pyval :=
  http_resp ← get_async self path params;
  error ← pure (get_error self http_resp);
  match error with
  | Some e => raise (ExAPIError e)
  | None => pure (json http_resp)
  end.

Definition get_data_async (self : Client) (path : string)
    (params : option (gmap string pyval)) : Async pyval :=
  json_resp ← get_json_response_async self path params;
  has_data ← pure (py_contains "data" json_resp);
  if negb has_data then
    raise (ExValueError (path +:+ " does not returns a data field"))
  else
    pure (py_getitem json_resp "data").

Definition close_async (self : Client) : Async unit :=
  session_close (_session self).

Definition get (self : Client) (path : string)
    (params : option (gmap string pyval)) : Async Response :=
  run_until_complete (get_async self path params).

Definition get_json_response (self : Client) (path : string)
    (params : option (gmap string pyval)) : Async pyval :=
  run_until_complete (get_json_response_async self path params).

Definition get_data (self : Client) (path : string)
    (params : option (gmap string pyval)) : Async pyval :=
  run_until_complete (get_data_async self path params).

(** [Client.close]: the argument of [run_until_complete] is [self.close(...)],
    a call of [close] itself, evaluated before [run_until_complete] runs.
    [depth] is the number of stack frames the interpreter still allows;
    at none left the call raises [RecursionError].  Were the inner call
    ever to return, its value would be no awaitable and
    [run_until_complete] would raise [TypeError]. *)
Fixpoint close (depth : nat) (self : Client) : Async unit :=
  match depth with
  | O => raise ExRecursionError
  | S depth' =>
      _ ← close depth' self;
      raise ExTypeError
  end.

(** ** Context managers: [with] and [async with] *)

(** How a call binds its positional arguments to a signature of [n]
    parameters after [self]: [TypeError] unless there are exactly [n]. *)
Definition positional {A : Type} (n : nat) (args : list A) : result unit :=
  if length args =? n then Return tt else Raise ExTypeError.

(** The three arguments a [with] statement hands to the exit method: the
    type, the value and the traceback of the exception in flight, all
    [None] when the body ended without one. *)
Definition exc_info (exc : option exn) : list (option exn) := [exc; exc; exc].

(** [Client.__aenter__]. *)
Definition __aenter__ (self : Client) : Async Client := mret self.

(** [Client.__aexit__(self, exc_type, exc, tb)]: it awaits [close_async]
    and returns [None]. *)
Definition __aexit__ (self : Client) (args : list (option exn))
    : Async pyval :=
  _ ← pure (positional 3 args);
  _ ← close_async self;
  mret PyNone.

(** [Client.__enter__]. *)
Definition __enter__ (self : Client) : Async Client := mret self.

(** [Client.__exit__(self)]: its signature has no parameter after [self];
    its body calls [close]. *)
Definition __exit__ (depth : nat) (self : Client) (args : list (option exn))
    : Async pyval :=
  _ ← pure (positional 0 args);
  _ ← close depth self;
  mret PyNone.

(** The statement [with mgr as c: body], over the enter and exit methods
    of [mgr].  The exit method gets the exception of the body, if any; a
    true value returned for it suppresses the exception, and the
    statement ends with no value, [None] here. *)
Definition with_statement {A : Type} (enter : Async Client)
    (exit : list (option exn) -> Async pyval) (body : Client -> Async A)
    : Async (option A) := fun w =>
  match enter w with
  | (Raise x, w1) => (Raise x, w1)
  | (Return c, w1) =>
      match body c w1 with
      | (Return a, w2) =>
          match exit (exc_info None) w2 with
          | (Return _, w3) => (Return (Some a), w3)
          | (Raise y, w3) => (Raise y, w3)
          end
      | (Raise x, w2) =>
          match exit (exc_info (Some x)) w2 with
          | (Return suppress, w3) =>
              if truthy suppress then (Return None, w3) else (Raise x, w3)
          | (Raise y, w3) => (Raise y, w3)
          end
      end
  end.

(** [async with mgr as c: body]. *)
Definition async_with {A : Type} (mgr : Client) (body : Client -> Async A)
    : Async (option A) :=
  with_statement (__aenter__ mgr) (__aexit__ mgr) body.

(** [with mgr as c: body]. *)
Definition with_ {A : Type} (depth : nat) (mgr : Client)
    (body : Client -> Async A) : Async (option A) :=
  with_statement (__enter__ mgr) (__exit__ depth mgr) body.

(** ** Objects, collection iterators and feeds

    [vt/object.py], [vt/iterator.py] and [vt/feed.py] are not among the
    sources.  The client only hands values to them, so the type of
    objects and its decoder are taken as they come, and the two iterators
    are modelled from the specification. *)

(** Modelled from the spec: the state of [Iterator], the Collection
    Iterator of [vt/iterator.py], which is missing.  The state is the one
    of section 3 (cursor, count of objects yielded, limit, batch size)
    with the buffer and the terminal mark of section 4.1. *)
Record Iterator (Object : Type) : Type := {
  it_client : Client;
  it_path : string;
  it_cursor : string;
  it_limit : option nat;
  it_batch_size : option nat;
  it_buffer : list Object;
  it_count : nat;
  it_terminal : bool
}.
Arguments it_client {Object} _.
Arguments it_path {Object} _.
Arguments it_cursor {Object} _.
Arguments it_limit {Object} _.
Arguments it_batch_size {Object} _.
Arguments it_buffer {Object} _.
Arguments it_count {Object} _.
Arguments it_terminal {Object} _.

(** Modelled from the spec: the state of [Feed], the Feed Iterator of
    [vt/feed.py], which is missing: the window cursor and the count of
    consecutive not-found retries at that cursor (section 3). *)
Record Feed : Type := {
  fd_client : Client;
  fd_type : FeedType;
  fd_cursor : string;
  fd_retries : nat
}.

Section objects.

(** [Object] and [Object.from_dict], from [vt/object.py]. *)
Variable Object : Type.
Variable Object_from_dict : pyval -> result Object.

(** [Client.get_object_async]. *)
Definition get_object_async (self : Client) (path : string)
    (params : option (gmap string pyval)) : Async Object :=
  try_except_ValueError
    (data ← get_data_async self path params;
     pure (Object_from_dict data))
    (fun err =>
       raise (ExValueError (path +:+ " did not return an object: " +:+ err))).

Definition get_object (self : Client) (path : string)
    (params : option (gmap string pyval)) : Async Object :=
  run_until_complete (get_object_async self path params).

(** Modelled from the spec: the constructor of [Iterator], missing with
    [vt/iterator.py].  Section 4.1: the iterator is built from the
    client handle, the path, the resume cursor, the limit and the batch
    size; its buffer is empty and its cursor is the resume cursor, or
    empty; it is lazy and fetches nothing until asked for an object. *)
Definition Iterator__init__ (client : Client) (path : string)
    (cursor : option string) (limit batch_size : option nat)
    : Async (Iterator Object) :=
  mret {| it_client := client; it_path := path;
          it_cursor := default "" cursor;
          it_limit := limit; it_batch_size := batch_size;
          it_buffer := []; it_count := 0; it_terminal := false |}.

(** [Client.iterator]. *)
Definition iterator (self : Client) (path : string)
    (cursor : option string) (limit batch_size : option nat)
    : Async (Iterator Object) :=
  Iterator__init__ self path cursor limit batch_size.

(** Modelled from the spec: the parsing of a page, missing with
    [vt/iterator.py].  The records are the [data] member, which must be
    an array (section 4.1, step 5); anything else is a decode error. *)
Definition page_records (path : string) (page : pyval)
    : result (list pyval) :=
  match page with
  | PyDict d =>
      match d !! "data" with
      | Some (PyList records) => Return records
      | _ => Raise (ExValueError (path +:+ " does not returns a data field"))
      end
  | _ => Raise (ExValueError (path +:+ " does not returns a data field"))
  end.

(** Modelled from the spec: the [meta.cursor] member of a page, when
    there is one (section 4.1, step 5). *)
Definition page_cursor (page : pyval) : option string :=
  match page with
  | PyDict d =>
      match d !! "meta" with
      | Some (PyDict meta) =>
          match meta !! "cursor" with
          | Some (PyStr c) => Some c
          | _ => None
          end
      | _ => None
      end
  | _ => None
  end.

(** Modelled from the spec: section 4.1, step 6, decodes every record of
    a page, in order; the first failure is the failure of the whole. *)
Definition decode_records (records : list pyval) : result (list Object) :=
  mapM Object_from_dict records.

End objects.

Arguments Iterator__init__ {Object} _ _ _ _ _.
Arguments iterator {Object} _ _ _ _ _.
Arguments get_object_async {Object} _ _ _ _.
Arguments get_object {Object} _ _ _ _.
Arguments decode_records {Object} _ _.

(** Modelled from the spec: the Collection Iterator of section 4.1,
    [vt/iterator.py] being missing. *)
Module CollectionIterator.
Section next.

Variable Object : Type.
Variable Object_from_dict : pyval -> result Object.

(** Modelled from the spec: the "remaining-to-limit" of step 4 of section
    4.1, the limit less the count of objects yielded so far. *)
Definition remaining (l : nat) (it : Iterator Object) : Z :=
  (Z.of_nat l - Z.of_nat (it_count it))%Z.

(** Modelled from the spec: step 4 of section 4.1 gives the query
    parameters of a fetch, [cursor] if non-empty and
    [limit: min(batch_size, remaining-to-limit)] if a batch size is set,
    else [remaining-to-limit] if a limit is set. *)
Definition query (it : Iterator Object) : gmap string pyval :=
  let cursor : gmap string pyval :=
    if String.eqb (it_cursor it) "" then ∅
    else {["cursor" := PyStr (it_cursor it)]} in
  match it_batch_size it, it_limit it with
  | Some b, Some l =>
      <["limit" := PyInt (Z.min (Z.of_nat b) (remaining l it))]> cursor
  | Some b, None => <["limit" := PyInt (Z.of_nat b)]> cursor
  | None, Some l => <["limit" := PyInt (remaining l it)]> cursor
  | None, None => cursor
  end.

(** Modelled from the spec: step 2 of section 4.1 pops the front object
    of the buffer and counts it. *)
Definition pop (o : Object) (rest : list Object) (it : Iterator Object)
    : Iterator Object :=
  {| it_client := it_client it; it_path := it_path it;
     it_cursor := it_cursor it; it_limit := it_limit it;
     it_batch_size := it_batch_size it;
     it_buffer := rest; it_count := S (it_count it);
     it_terminal := it_terminal it |}.

(** Modelled from the spec: step 6 of section 4.1.  The decoded objects
    go to the buffer; the cursor becomes [meta.cursor] if present, else
    the iterator is marked terminal. *)
Definition refill (objs : list Object) (next_cursor : option string)
    (it : Iterator Object) : Iterator Object :=
  {| it_client := it_client it; it_path := it_path it;
     it_cursor := default (it_cursor it) next_cursor;
     it_limit := it_limit it; it_batch_size := it_batch_size it;
     it_buffer := it_buffer it ++ objs; it_count := it_count it;
     it_terminal := match next_cursor with Some _ => false | None => true end |}.

(** Modelled from the spec: the "next object" request of section 4.1,
    missing with [vt/iterator.py].  It returns [Some o] for an object,
    [None] for the end of the sequence, or raises; with it come the
    iterator and the world it leaves.  The front of a non-empty buffer is
    popped (step 2); on an empty buffer a terminal iterator ends the
    sequence (step 3); else one page is fetched (step 4), parsed
    (step 5), decoded into the buffer (step 6) and the request starts
    over (step 7).  [fuel] bounds the number of fetches of one request,
    and the outer [None] says the bound was hit.  An error leaves the
    state of the iterator as it was. *)
Fixpoint next (fuel : nat) (it : Iterator Object) (w : World)
    : option (result (option Object) * Iterator Object * World) :=
  match it_buffer it with
  | o :: rest => Some (Return (Some o), pop o rest it, w)
  | [] =>
      if it_terminal it then Some (Return None, it, w)
      else
        match fuel with
        | O => None
        | S fuel' =>
            match get_json_response (it_client it) (it_path it)
                                    (Some (query it)) w with
            | (Raise x, w') => Some (Raise x, it, w')
            | (Return page, w') =>
                match records ← page_records (it_path it) page;
                      decode_records Object_from_dict records with
                | Raise x => Some (Raise x, it, w')
                | Return objs =>
                    next fuel' (refill objs (page_cursor page) it) w'
                end
            end
        end
  end.

(** The life of an iterator: one "next object" request after the other,
    each with its own bound, collecting the objects yielded.  A caller
    may ask again after an error or after the end of the sequence; a
    request that never returns ends the life of the iterator. *)
Fixpoint consume (fuels : list nat) (it : Iterator Object) (w : World)
    : list Object :=
  match fuels with
  | [] => []
  | fuel :: fuels' =>
      match next fuel it w with
      | None => []
      | Some (Return (Some o), it', w') => o :: consume fuels' it' w'
      | Some (_, it', w') => consume fuels' it' w'
      end
  end.

End next.

(** A network honours the [limit] of a request when no page it answers
    with, of status 200, holds more records than that [limit]. *)
Definition honours_limit (net : nat -> Request -> result Response) : Prop :=
  forall (n : nat) (rq : Request) (resp : Response)
         (d p : gmap string pyval) (records : list pyval) (k : Z),
    net n rq = Return resp -> (status resp = 200)%Z ->
    json resp = Return (PyDict d) ->
    d !! "data" = Some (PyList records) ->
    params rq = Some p -> p !! "limit" = Some (PyInt k) ->
    (Z.of_nat (length records) <= k)%Z.

Arguments remaining {Object} _ _.
Arguments query {Object} _.
Arguments pop {Object} _ _ _.
Arguments refill {Object} _ _ _.
Arguments next {Object} _ _ _ _.
Arguments consume {Object} _ _ _ _.

End CollectionIterator.

(** Modelled from the spec: the Feed Iterator of section 4.2, [vt/feed.py]
    being missing.  The spec leaves open the retry budget, the path of a
    window, the default starting cursor, how the next window is computed
    and which error reports "not found"; they are parameters here.  The
    wait between two attempts takes time and changes nothing else. *)
Module FeedIterator.
Section next_batch.

Variable Object : Type.
Variable Object_from_dict : pyval -> result Object.
Variable retry_budget : nat.
Variable window_path : FeedType -> string -> string.
Variable default_cursor : string.
Variable next_window : string -> string.
Variable not_found : APIError -> bool.

(** Modelled from the spec: the constructor of [Feed], missing with
    [vt/feed.py].  The window cursor starts at the supplied cursor, or at
    the default; nothing is fetched. *)
Definition Feed__init__ (client : Client) (feed_type : FeedType)
    (cursor : option string) : Async Feed :=
  mret {| fd_client := client; fd_type := feed_type;
          fd_cursor := default default_cursor cursor; fd_retries := 0 |}.

Definition reports_not_found (x : exn) : bool :=
  match x with
  | ExAPIError e => not_found e
  | _ => false
  end.

(** The request for the current window of a feed. *)
Definition window_request (fd : Feed) : Request :=
  {| url := _full_url (fd_client fd) (window_path (fd_type fd) (fd_cursor fd));
     params := None |}.

(** The [k]-th fetch from the world [w] on reports "not found": the
    response is one that [get_error] classifies as a not-found error. *)
Definition not_found_at (fd : Feed) (w : World) (k : nat) : Prop :=
  exists resp e,
    network w (length (log w) + k) (window_request fd) = Return resp /\
    get_error (fd_client fd) resp = Return (Some e) /\
    not_found e = true.

(** Modelled from the spec: step 3 of section 4.2 advances the cursor to
    the next window and resets the retries. *)
Definition advance (fd : Feed) : Feed :=
  {| fd_client := fd_client fd; fd_type := fd_type fd;
     fd_cursor := next_window (fd_cursor fd); fd_retries := 0 |}.

(** Modelled from the spec: step 2 of section 4.2, one more retry at the
    same cursor. *)
Definition retry (fd : Feed) : Feed :=
  {| fd_client := fd_client fd; fd_type := fd_type fd;
     fd_cursor := fd_cursor fd; fd_retries := S (fd_retries fd) |}.

(** Modelled from the spec: steps 1 to 4 of section 4.2, one attempt and
    the retries after it, [left] being what remains of the retry budget.
    A fetch that reports "not found" is tried again at the same cursor
    while retries are left and gives [RetriesExhaustedError] when none
    is; a batch advances the feed; any other error comes out as it is. *)
Fixpoint attempt (left : nat) (fd : Feed) (w : World)
    : result (list Object) * Feed * World :=
  let path := window_path (fd_type fd) (fd_cursor fd) in
  match get_json_response (fd_client fd) path None w with
  | (Return page, w') =>
      match records ← page_records path page;
            decode_records Object_from_dict records with
      | Return batch => (Return batch, advance fd, w')
      | Raise x => (Raise x, fd, w')
      end
  | (Raise x, w') =>
      if reports_not_found x then
        match left with
        | O => (Raise ExRetriesExhausted, fd, w')
        | S left' => attempt left' (retry fd) w'
        end
      else (Raise x, fd, w')
  end.

(** Modelled from the spec: the "next batch" request of section 4.2,
    missing with [vt/feed.py]. *)
Definition next_batch (fd : Feed) (w : World)
    : result (list Object) * Feed * World :=
  attempt (retry_budget - fd_retries fd) fd w.

End next_batch.

Arguments attempt {Object} _ _ _ _ _ _ _.
Arguments next_batch {Object} _ _ _ _ _ _ _.

End FeedIterator.

(** [Client.feed]: [Feed(self, feed_type, cursor=cursor)]. *)
Definition feed (default_cursor : string) (self : Client)
    (feed_type : FeedType) (cursor : option string) : Async Feed :=
  FeedIterator.Feed__init__ default_cursor self feed_type cursor.

(** Modelled from the spec: an object as section 9 describes it, with its
    identity, attributes and relationships, and a decoder that fails with
    a decode error on a record that lacks the identity fields
    (section 6).  [vt/object.py] is missing; the iterators are run with
    this decoder on concrete pages. *)
Record VTObject : Type := {
  obj_id : string;
  obj_type : string;
  obj_attributes : gmap string pyval;
  obj_relationships : gmap string pyval
}.

Definition dict_member (d : gmap string pyval) (key : string)
    : gmap string pyval :=
  match d !! key with
  | Some (PyDict m) => m
  | _ => ∅
  end.

Definition VTObject_from_dict (record : pyval) : result VTObject :=
  match record with
  | PyDict d =>
      match d !! "id", d !! "type" with
      | Some (PyStr i), Some (PyStr t) =>
          Return {| obj_id := i; obj_type := t;
                    obj_attributes := dict_member d "attributes";
                    obj_relationships := dict_member d "relationships" |}
      | _, _ => Raise (ExValueError "expecting an object with id and type")
      end
  | _ => Raise (ExValueError "expecting an object with id and type")
  end.

(** ** Worlds and clients to run the code on *)

(** A world with one open session in which every request comes back with
    the same response. *)
Definition world_of (out : result Response) : World :=
  {| sessions := [{| headers := ∅; closed := false |}];
     network := fun _ _ => out;
     log := [] |}.

(** A world with two open sessions and a network that is down. *)
Definition two_sessions : World :=
  {| sessions := [{| headers := ∅; closed := false |};
                  {| headers := ∅; closed := false |}];
     network := fun _ _ => Raise (ExTransport "ClientConnectionError");
     log := [] |}.

(** A client on session 0 of such a world. *)
Definition a_client : Client :=
  {| _host := _API_HOST; _apikey := "key"; _agent := "unknown"; _session := 0 |}.

(** The text of a JSON string literal: [s] between double quotes. *)
Definition quoted (s : string) : string :=
  String (Ascii.ascii_of_nat 34) s +:+ String (Ascii.ascii_of_nat 34) "".

(** [404 {"error": {"code": "NotFoundError", "message": "Resource not found"}}] *)
Definition not_found_response : Response :=
  {| status := 404;
     json := Return (PyDict {["error" :=
               PyDict (<["code" := PyStr "NotFoundError"]>
                         {["message" := PyStr "Resource not found"]})]});
     text := "{" +:+ quoted "error" +:+ ": {" +:+ quoted "code" +:+ ": "
             +:+ quoted "NotFoundError" +:+ ", " +:+ quoted "message" +:+ ": "
             +:+ quoted "Resource not found" +:+ "}}" |}.

(** [400 {"error": {"message": "bad request"}}]: an error that names no
    code. *)
Definition error_without_code : Response :=
  {| status := 400;
     json := Return (PyDict {["error" :=
               PyDict {["message" := PyStr "bad request"]}]});
     text := "{" +:+ quoted "error" +:+ ": {" +:+ quoted "message" +:+ ": "
             +:+ quoted "bad request" +:+ "}}" |}.

(** [200 null]: a body that is JSON and no object. *)
Definition null_response : Response :=
  {| status := 200; json := Return PyNone; text := "null" |}.

(** [200 {"data": {"id": "abc", "type": "file"}}] *)
Definition file_response : Response :=
  {| status := 200;
     json := Return (PyDict {["data" :=
               PyDict (<["id" := PyStr "abc"]> {["type" := PyStr "file"]})]});
     text := "{" +:+ quoted "data" +:+ ": {" +:+ quoted "id" +:+ ": "
             +:+ quoted "abc" +:+ ", " +:+ quoted "type" +:+ ": "
             +:+ quoted "file" +:+ "}}" |}.

(** [200 {"data": {"name": "abc"}}]: data that lacks the identity of an
    object. *)
Definition anonymous_response : Response :=
  {| status := 200;
     json := Return (PyDict {["data" := PyDict {["name" := PyStr "abc"]}]});
     text := "{" +:+ quoted "data" +:+ ": {" +:+ quoted "name" +:+ ": "
             +:+ quoted "abc" +:+ "}}" |}.

(** [200 {}]: an object with no member at all. *)
Definition empty_object_response : Response :=
  {| status := 200; json := Return (PyDict ∅); text := "{}" |}.

(** A record of a collection: [{"id": id, "type": "file"}]. *)
Definition file_record (id : string) : pyval :=
  PyDict (<["id" := PyStr id]> {["type" := PyStr "file"]}).

(** A page of three records with a cursor for the page after it, whatever
    [limit] the request asked for. *)
Definition page_of_three : Response :=
  {| status := 200;
     json := Return (PyDict
               (<["data" := PyList [file_record "a"; file_record "b";
                                     file_record "c"]]>
                  {["meta" := PyDict {["cursor" := PyStr "next"]}]}));
     text := "" |}.

(** A page of one record with a cursor for the page after it. *)
Definition page_of_one : Response :=
  {| status := 200;
     json := Return (PyDict
               (<["data" := PyList [file_record "a"]]>
                  {["meta" := PyDict {["cursor" := PyStr "next"]}]}));
     text := "" |}.

(** A page of no record with a cursor for the page after it. *)
Definition page_of_none : Response :=
  {| status := 200;
     json := Return (PyDict
               (<["data" := PyList []]>
                  {["meta" := PyDict {["cursor" := PyStr "next"]}]}));
     text := "" |}.

(** A network that serves a collection one record a page, and no record
    when the request asks for none. *)
Definition one_a_page (n : nat) (rq : Request) : result Response :=
  match params rq with
  | Some p =>
      match p !! "limit" with
      | Some (PyInt k) =>
          if (1 <=? k)%Z then Return page_of_one
          else if (k =? 0)%Z then Return page_of_none
          else Return error_without_code
      | _ => Return page_of_one
      end
  | None => Return page_of_one
  end.

(** A world with one open session on that network. *)
Definition one_a_page_world : World :=
  {| sessions := [{| headers := ∅; closed := false |}];
     network := one_a_page;
     log := [] |}.

(** The iterator over a search, with limit 2 and batch size 1, as its
    constructor leaves it. *)
Definition an_iterator : Iterator VTObject :=
  {| it_client := a_client; it_path := "/intelligence/search";
     it_cursor := ""; it_limit := Some 2; it_batch_size := Some 1;
     it_buffer := []; it_count := 0; it_terminal := false |}.

(** The path of a window of a feed, the cursor being part of the path. *)
Definition feeds_path (t : FeedType) (cursor : string) : string :=
  "/feeds/" +:+ FeedType_value t +:+ "/" +:+ cursor.

(** An error whose code is ['NotFoundError']. *)
Definition is_NotFoundError (e : APIError) : bool :=
  match code e with
  | PyStr s => String.eqb s "NotFoundError"
  | _ => false
  end.

(** A feed of files at the window [202304010930]. *)
Definition a_feed : Feed :=
  {| fd_client := a_client; fd_type := FILES;
     fd_cursor := "202304010930"; fd_retries := 0 |}.

(** * Properties *)

(** ** Strings *)

Lemma prefix_app (s1 s2 : string) :
  String.prefix s1 s2 = true <-> exists rest, s2 = s1 +:+ rest.
Proof.
  revert s2. induction s1 as [|a s1 IH]; intros s2.
  - split; [intros _; exists s2; reflexivity | destruct s2; reflexivity].
  - destruct s2 as [|b s2]; simpl.
    + split; [discriminate | intros [rest H]; discriminate].
    + destruct (Ascii.ascii_dec a b) as [->|Hne].
      * rewrite IH. split; intros [rest H]; exists rest.
        -- rewrite H. reflexivity.
        -- injection H as H. exact H.
      * split; [discriminate | intros [rest H]].
        injection H as H1 H2. congruence.
Qed.

(** ** The monad *)

Lemma bind_Return {A B : Type} (m : Async A) (f : A -> Async B)
    (w w' : World) (a : A) :
  m w = (Return a, w') -> (m ≫= f) w = f a w'.
Proof. intros H. unfold mbind, Async_bind. rewrite H. reflexivity. Qed.

Lemma bind_Raise {A B : Type} (m : Async A) (f : A -> Async B)
    (w w' : World) (x : exn) :
  m w = (Raise x, w') -> (m ≫= f) w = (Raise x, w').
Proof. intros H. unfold mbind, Async_bind. rewrite H. reflexivity. Qed.

(** ** [Client._full_url] *)

(** C9.  [_full_url] returns a path that starts with ["http"] unchanged,
    and any other path with the host of the client and then ["/api/v3"]
    in front of it: the endpoint prefix is prepended once to a relative
    path and an absolute URL gets neither host nor prefix. *)
Theorem full_url_correct (self : Client) (path : string) :
  ((exists rest, path = "http" +:+ rest) -> _full_url self path = path) /\
  (~ (exists rest, path = "http" +:+ rest) ->
   _full_url self path = _host self +:+ "/api/v3" +:+ path).
Proof.
  unfold _full_url. split; intros H.
  - apply prefix_app in H. rewrite H. reflexivity.
  - destruct (String.prefix "http" path) eqn:E; [|reflexivity].
    apply prefix_app in E. contradiction.
Qed.

Lemma full_url_correct_witness :
  _full_url a_client "https://example.com/x" = "https://example.com/x" /\
  _full_url a_client "/files/abc" = "https://www.virustotal.com/api/v3/files/abc".
Proof.
  split.
  - apply (proj1 (full_url_correct a_client "https://example.com/x")).
    exists "s://example.com/x". reflexivity.
  - apply (proj2 (full_url_correct a_client "/files/abc")).
    intros [rest H]. discriminate H.
Defined.

(** ** [Client.get_error] *)

(** The range test of [get_error]. *)
Lemma client_range (n : Z) :
  ((400 <=? n) && (n <=? 499))%Z = true <-> (400 <= n <= 499)%Z.
Proof. rewrite andb_true_iff, !Z.leb_le. reflexivity. Qed.

Lemma get_error_4xx (self : Client) (r : Response) :
  (400 <= status r <= 499)%Z ->
  get_error self r =
    (json_resp ← json r;
     error ← py_get json_resp "error";
     if truthy error then e ← from_dict error; Return (Some e)
     else Return (Some (APIError__init__ (PyStr "ClientError") (PyStr (text r))))).
Proof.
  intros H. unfold get_error.
  replace (status r =? 200)%Z with false by (symmetry; apply Z.eqb_neq; lia).
  apply client_range in H. rewrite H. reflexivity.
Qed.

Lemma truthy_dict_with (d : gmap string pyval) (k : string) (v : pyval) :
  d !! k = Some v -> truthy (PyDict d) = true.
Proof.
  intros H. simpl. apply negb_true_iff, Nat.eqb_neq. intros Hs.
  apply map_size_empty_iff in Hs. subst d. rewrite lookup_empty in H.
  discriminate.
Qed.

(** C1, amended.  [get_error] returns [None] for status 200.  For a status
    from 400 to 499 whose body is a JSON object: with an [error] member
    that is an object holding [code], it returns the [APIError] of that
    code and of the member [message] ([None] when absent); with an
    [error] object that is not empty and holds no [code], it raises
    [KeyError]; with no [error] member, or one that is false, it returns
    [APIError('ClientError', text)].  For any other status it returns
    [APIError('ServerError', text)]. *)
Theorem get_error_classification (self : Client) (r : Response) :
  ((status r = 200)%Z -> get_error self r = Return None) /\
  ((400 <= status r <= 499)%Z ->
   forall d : gmap string pyval, json r = Return (PyDict d) ->
     (forall (env : gmap string pyval) (c : pyval),
        d !! "error" = Some (PyDict env) -> env !! "code" = Some c ->
        get_error self r =
          Return (Some (APIError__init__ c (default PyNone (env !! "message"))))) /\
     (forall env : gmap string pyval,
        d !! "error" = Some (PyDict env) -> env <> ∅ -> env !! "code" = None ->
        get_error self r = Raise (ExKeyError "code")) /\
     (d !! "error" = None \/
      (exists v, d !! "error" = Some v /\ truthy v = false) ->
      get_error self r =
        Return (Some (APIError__init__ (PyStr "ClientError") (PyStr (text r)))))) /\
  ((status r <> 200)%Z -> ~ (400 <= status r <= 499)%Z ->
   get_error self r =
     Return (Some (APIError__init__ (PyStr "ServerError") (PyStr (text r))))).
Proof.
  split; [|split].
  - intros H. unfold get_error. rewrite H. reflexivity.
  - intros H d Hj. rewrite (get_error_4xx self r H), Hj. simpl.
    split; [|split].
    + intros env c He Hc. rewrite He. simpl.
      change (negb (size env =? 0)) with (truthy (PyDict env)).
      rewrite (truthy_dict_with env "code" c Hc).
      unfold from_dict. simpl. rewrite Hc. reflexivity.
    + intros env He Hne Hc. rewrite He. simpl.
      destruct (size env =? 0) eqn:E.
      * apply Nat.eqb_eq, map_size_empty_iff in E. contradiction.
      * unfold from_dict. simpl. rewrite Hc. reflexivity.
    + intros [Hn | (v & Hv & Hf)].
      * rewrite Hn. reflexivity.
      * rewrite Hv. simpl. rewrite Hf. reflexivity.
  - intros H1 H2. unfold get_error.
    replace (status r =? 200)%Z with false by (symmetry; apply Z.eqb_neq; lia).
    destruct ((400 <=? status r) && (status r <=? 499))%Z eqn:E; [|reflexivity].
    apply client_range in E. contradiction.
Qed.


Lemma get_error_classification_witness :
  get_error a_client not_found_response =
    Return (Some (APIError__init__ (PyStr "NotFoundError")
                                  (PyStr "Resource not found"))).
Proof.
  pose (env := <["code" := PyStr "NotFoundError"]>
                 ({["message" := PyStr "Resource not found"]}
                    : gmap string pyval)).
  destruct (get_error_classification a_client not_found_response)
    as (_ & H & _).
  assert (Hs : (400 <= status not_found_response <= 499)%Z) by (simpl; lia).
  destruct (H Hs {["error" := PyDict env]} eq_refl) as (H1 & _).
  assert (He : ({["error" := PyDict env]} : gmap string pyval) !! "error"
               = Some (PyDict env)) by (vm_compute; reflexivity).
  assert (Hc : env !! "code" = Some (PyStr "NotFoundError"))
    by (vm_compute; reflexivity).
  rewrite (H1 env _ He Hc). vm_compute. reflexivity.
Defined.

(** C1 as stated fails: a response of status 400 whose [error] envelope
    holds a message and no code is classified as no [APIError] at all,
    [get_error] raises [KeyError]. *)
Lemma get_error_envelope_without_code :
  (400 <= status error_without_code <= 499)%Z /\
  get_error a_client error_without_code = Raise (ExKeyError "code") /\
  ~ (exists e, get_error a_client error_without_code = Return (Some e)).
Proof.
  split; [simpl; lia|]. split; [vm_compute; reflexivity|].
  intros [e H]. vm_compute in H. discriminate H.
Qed.

Lemma get_error_None (self : Client) (r : Response) :
  get_error self r = Return None -> (status r = 200)%Z.
Proof.
  unfold get_error. destruct (status r =? 200)%Z eqn:E.
  - intros _. apply Z.eqb_eq. exact E.
  - destruct ((400 <=? status r) && (status r <=? 499))%Z; [|discriminate].
    destruct (json r) as [j|x]; simpl; [|discriminate].
    destruct (py_get j "error") as [v|x]; simpl; [|discriminate].
    destruct (truthy v); [|discriminate].
    destruct (from_dict v); simpl; discriminate.
Qed.

(** ** [Client.get_json_response_async] *)

(** A request on an open session is sent once and answered by the
    network. *)
Lemma get_async_open (self : Client) (path : string)
    (params : option (gmap string pyval)) (w : World) (ss : Session) :
  sessions w !! _session self = Some ss -> closed ss = false ->
  get_async self path params w =
    (network w (length (log w)) {| url := _full_url self path; params := params |},
     send {| url := _full_url self path; params := params |} w).
Proof.
  intros Hs Hc. unfold get_async, session_get. rewrite Hs, Hc. reflexivity.
Qed.

(** On any session a request leaves the world as it was or sends exactly
    one request, and an answer means the request was sent. *)
Lemma get_async_world (self : Client) (path : string)
    (params : option (gmap string pyval)) (w w' : World)
    (out : result Response) :
  get_async self path params w = (out, w') ->
  (w' = send {| url := _full_url self path; params := params |} w /\
   out = network w (length (log w))
           {| url := _full_url self path; params := params |}) \/
  (w' = w /\ exists x, out = Raise x).
Proof.
  unfold get_async, session_get.
  destruct (sessions w !! _session self) as [ss|].
  - destruct (closed ss); intros H; injection H as <- <-; eauto.
  - intros H; injection H as <- <-; eauto.
Qed.

(** What [get_json_response_async] does with the outcome of the request. *)
Lemma get_json_response_async_unfold (self : Client) (path : string)
    (params : option (gmap string pyval)) (w w' : World)
    (out : result Response) :
  get_async self path params w = (out, w') ->
  get_json_response_async self path params w =
    (http_resp ← out;
     error ← get_error self http_resp;
     match error with
     | Some e => Raise (ExAPIError e)
     | None => json http_resp
     end, w').
Proof.
  intros H. unfold get_json_response_async.
  destruct out as [resp|x].
  - rewrite (bind_Return _ _ _ _ _ H). unfold mbind at 1, Async_bind, pure.
    simpl. destruct (get_error self resp) as [[e|]|x]; reflexivity.
  - rewrite (bind_Raise _ _ _ _ _ H). reflexivity.
Qed.

(** A failure of the transport itself comes out as it is. *)
Lemma get_json_response_async_transport_error (self : Client) (path : string)
    (params : option (gmap string pyval)) (w : World) (ss : Session) (x : exn) :
  sessions w !! _session self = Some ss -> closed ss = false ->
  network w (length (log w)) {| url := _full_url self path; params := params |}
    = Raise x ->
  get_json_response_async self path params w =
    (Raise x, send {| url := _full_url self path; params := params |} w).
Proof.
  intros Hs Hc Hn.
  rewrite (get_json_response_async_unfold _ _ _ _ _ _
             (get_async_open self path params w ss Hs Hc)), Hn.
  reflexivity.
Qed.

(** C2, amended.  For every response [resp] that comes back to the
    request of [get_json_response_async]: the call returns a value if and
    only if the status is 200 and the body parses, and the value is the
    parsed body; for a status other than 200 it raises, the [APIError]
    that [get_error] returns when it classifies the response and else
    the exception [get_error] raises itself; at status 200 an exception
    of the parsing of the body comes out unchanged; the request is sent
    exactly once. *)
Theorem get_json_response_async_correct (self : Client) (path : string)
    (params : option (gmap string pyval)) (w : World) (ss : Session)
    (resp : Response) :
  sessions w !! _session self = Some ss -> closed ss = false ->
  network w (length (log w)) {| url := _full_url self path; params := params |}
    = Return resp ->
  let out := get_json_response_async self path params w in
  snd out = send {| url := _full_url self path; params := params |} w /\
  (forall v, fst out = Return v <->
     (status resp = 200)%Z /\ json resp = Return v) /\
  ((status resp <> 200)%Z ->
     (exists x, fst out = Raise x) /\
     (forall e, get_error self resp = Return (Some e) ->
        fst out = Raise (ExAPIError e)) /\
     (forall x, get_error self resp = Raise x -> fst out = Raise x)) /\
  ((status resp = 200)%Z ->
     forall x, json resp = Raise x -> fst out = Raise x).
Proof.
  intros Hs Hc Hn out. subst out.
  rewrite (get_json_response_async_unfold _ _ _ _ _ _
             (get_async_open self path params w ss Hs Hc)), Hn.
  simpl.
  assert (H200 : (status resp = 200)%Z -> get_error self resp = Return None).
  { intros H. unfold get_error. rewrite H. reflexivity. }
  split; [reflexivity|]. split; [|split].
  - intros v. split.
    + destruct (get_error self resp) as [[e|]|x] eqn:E; simpl;
        try discriminate.
      intros H. split; [apply (get_error_None self resp E) | exact H].
    + intros [H Hv]. rewrite (H200 H). exact Hv.
  - intros Hne. split; [|split].
    + destruct (get_error self resp) as [[e|]|x] eqn:E; simpl; eauto.
      apply get_error_None in E. contradiction.
    + intros e He. rewrite He. reflexivity.
    + intros x Hx. rewrite Hx. reflexivity.
  - intros H x Hx. rewrite (H200 H). exact Hx.
Qed.

Lemma get_json_response_async_correct_witness :
  fst (get_json_response_async a_client "/files/abc" None
         (world_of (Return not_found_response)))
  = Raise (ExAPIError (APIError__init__ (PyStr "NotFoundError")
                                        (PyStr "Resource not found"))).
Proof.
  assert (Hs : sessions (world_of (Return not_found_response))
                 !! _session a_client
               = Some {| headers := ∅; closed := false |}) by reflexivity.
  destruct (get_json_response_async_correct a_client "/files/abc" None
              (world_of (Return not_found_response)) _ not_found_response
              Hs eq_refl eq_refl)
    as (_ & _ & H & _).
  assert (Hne : (status not_found_response <> 200)%Z) by (simpl; lia).
  destruct (H Hne) as (_ & He & _). apply He. vm_compute. reflexivity.
Defined.

(** C2 as stated fails: for the response of status 400 whose [error]
    envelope holds a message and no code, [get_json_response_async]
    raises the [KeyError] of [get_error], which is no [APIError]. *)
Lemma get_json_response_async_envelope_without_code :
  (status error_without_code <> 200)%Z /\
  fst (get_json_response_async a_client "/files/abc" None
         (world_of (Return error_without_code)))
  = Raise (ExKeyError "code") /\
  ~ (exists e,
       fst (get_json_response_async a_client "/files/abc" None
              (world_of (Return error_without_code)))
       = Raise (ExAPIError e)).
Proof.
  split; [simpl; lia|]. split; [vm_compute; reflexivity|].
  intros [e H]. vm_compute in H. discriminate H.
Qed.

(** ** [Client.get_data_async] *)

Lemma get_data_async_unfold (self : Client) (path : string)
    (params : option (gmap string pyval)) (w w' : World) (page : pyval) :
  get_json_response_async self path params w = (Return page, w') ->
  get_data_async self path params w =
    (has_data ← py_contains "data" page;
     if negb has_data
     then Raise (ExValueError (path +:+ " does not returns a data field"))
     else py_getitem page "data", w').
Proof.
  intros H. unfold get_data_async. rewrite (bind_Return _ _ _ _ _ H).
  unfold mbind at 1, Async_bind, pure.
  destruct (py_contains "data" page) as [[|]|x]; reflexivity.
Qed.

(** A response of status 200 with a parsed body is what
    [get_json_response_async] returns. *)
Lemma get_json_response_async_200 (self : Client) (path : string)
    (params : option (gmap string pyval)) (w : World) (ss : Session)
    (resp : Response) (page : pyval) :
  sessions w !! _session self = Some ss -> closed ss = false ->
  network w (length (log w)) {| url := _full_url self path; params := params |}
    = Return resp ->
  (status resp = 200)%Z -> json resp = Return page ->
  get_json_response_async self path params w =
    (Return page, send {| url := _full_url self path; params := params |} w).
Proof.
  intros Hs Hc Hn H200 Hj.
  rewrite (get_json_response_async_unfold _ _ _ _ _ _
             (get_async_open self path params w ss Hs Hc)), Hn.
  simpl. unfold get_error. rewrite H200. simpl. rewrite Hj. reflexivity.
Qed.

(** C3, amended.  For every response of status 200 whose body is a JSON
    object, [get_data_async] returns the value of the member [data] of
    that object, and if the object has no member [data] it raises the
    [ValueError] that names the path and returns nothing. *)
Theorem get_data_async_correct (self : Client) (path : string)
    (params : option (gmap string pyval)) (w : World) (ss : Session)
    (resp : Response) (d : gmap string pyval) :
  sessions w !! _session self = Some ss -> closed ss = false ->
  network w (length (log w)) {| url := _full_url self path; params := params |}
    = Return resp ->
  (status resp = 200)%Z -> json resp = Return (PyDict d) ->
  (forall v, d !! "data" = Some v ->
     fst (get_data_async self path params w) = Return v) /\
  (d !! "data" = None ->
     fst (get_data_async self path params w) =
       Raise (ExValueError (path +:+ " does not returns a data field"))).
Proof.
  intros Hs Hc Hn H200 Hj.
  rewrite (get_data_async_unfold _ _ _ _ _ _
             (get_json_response_async_200 self path params w ss resp
                (PyDict d) Hs Hc Hn H200 Hj)).
  simpl. split.
  - intros v Hv. rewrite Hv. reflexivity.
  - intros Hv. rewrite Hv. reflexivity.
Qed.

Lemma get_data_async_correct_witness :
  fst (get_data_async a_client "/files/abc" None
         (world_of (Return file_response)))
  = Return (PyDict (<["id" := PyStr "abc"]> {["type" := PyStr "file"]})).
Proof.
  assert (Hs : sessions (world_of (Return file_response)) !! _session a_client
               = Some {| headers := ∅; closed := false |}) by reflexivity.
  pose (obj := PyDict (<["id" := PyStr "abc"]> {["type" := PyStr "file"]})).
  assert (Hd : ({["data" := obj]} : gmap string pyval) !! "data" = Some obj)
    by (vm_compute; reflexivity).
  exact (proj1 (get_data_async_correct a_client "/files/abc" None
                  (world_of (Return file_response)) _ file_response
                  {["data" := obj]} Hs eq_refl eq_refl eq_refl eq_refl)
               obj Hd).
Defined.

(** C3 as stated fails: the body [null] of a response of status 200 is
    parsed JSON with no [data] field, and [get_data_async] raises
    [TypeError] for it, not a [ValueError]. *)
Lemma get_data_async_null_body :
  (status null_response = 200)%Z /\
  json null_response = Return PyNone /\
  fst (get_data_async a_client "/files/abc" None
         (world_of (Return null_response))) = Raise ExTypeError /\
  ~ (exists msg,
       fst (get_data_async a_client "/files/abc" None
              (world_of (Return null_response))) = Raise (ExValueError msg)).
Proof.
  split; [reflexivity|]. split; [reflexivity|].
  split; [vm_compute; reflexivity|].
  intros [msg H]. vm_compute in H. discriminate H.
Qed.

(** ** [Client.get_object_async] *)

(** A value returned by [get_data_async] has cost exactly one request. *)
Lemma get_data_async_world (self : Client) (path : string)
    (params : option (gmap string pyval)) (w w' : World) (data : pyval) :
  get_data_async self path params w = (Return data, w') ->
  w' = send {| url := _full_url self path; params := params |} w.
Proof.
  intros H.
  destruct (get_async self path params w) as [out w1] eqn:Ha.
  pose proof (get_json_response_async_unfold _ _ _ _ _ _ Ha) as Hj.
  destruct (get_async_world _ _ _ _ _ _ Ha) as [[-> _] | [-> [x ->]]].
  - revert H. unfold get_data_async, mbind at 1, Async_bind. rewrite Hj.
    destruct (_ : result pyval) as [page|x]; [|discriminate].
    unfold mbind at 1, Async_bind, pure.
    destruct (py_contains "data" page) as [[|]|x]; simpl;
      try discriminate.
    intros H. injection H as _ <-. reflexivity.
  - revert H. unfold get_data_async, mbind at 1, Async_bind. rewrite Hj.
    discriminate.
Qed.

(** C6.  When the data that [get_data_async] returns for a path fails to
    decode, [Object.from_dict] raising a [ValueError], [get_object_async]
    raises the [ValueError] that names the path and that failure; it does
    so after the one request that brought the data, nothing is sent again. *)
Theorem get_object_async_decode_error {Object : Type}
    (Object_from_dict : pyval -> result Object) (self : Client)
    (path : string) (params : option (gmap string pyval)) (w w' : World)
    (data : pyval) (err : string) :
  get_data_async self path params w = (Return data, w') ->
  Object_from_dict data = Raise (ExValueError err) ->
  get_object_async Object_from_dict self path params w =
    (Raise (ExValueError (path +:+ " did not return an object: " +:+ err)),
     send {| url := _full_url self path; params := params |} w).
Proof.
  intros Hd He. rewrite <- (get_data_async_world _ _ _ _ _ _ Hd).
  unfold get_object_async, try_except_ValueError.
  rewrite (bind_Return _ _ _ _ _ Hd). unfold pure. rewrite He. reflexivity.
Qed.

Lemma get_object_async_decode_error_witness :
  get_object_async VTObject_from_dict a_client "/files/abc" None
    (world_of (Return anonymous_response))
  = (Raise (ExValueError
      ("/files/abc" +:+ " did not return an object: "
       +:+ "expecting an object with id and type")),
     send {| url := _full_url a_client "/files/abc"; params := None |}
          (world_of (Return anonymous_response))).
Proof.
  apply (get_object_async_decode_error VTObject_from_dict a_client
           "/files/abc" None (world_of (Return anonymous_response))
           (send {| url := _full_url a_client "/files/abc"; params := None |}
                 (world_of (Return anonymous_response)))
           (PyDict {["name" := PyStr "abc"]})).
  - vm_compute. reflexivity.
  - vm_compute. reflexivity.
Defined.

(** ** [Client.iterator] and [Client.feed] *)

(** C7.  [Client.iterator] returns the [Iterator] its constructor builds
    from the client, the path and the given cursor, limit and batch size,
    and [Client.feed] the [Feed] its constructor builds from the client,
    the feed type and the cursor; both leave the world as it was, no
    request is sent. *)
Theorem iterator_feed_construct {Object : Type} (self : Client)
    (path : string) (cursor : option string) (limit batch_size : option nat)
    (default_cursor : string) (feed_type : FeedType)
    (feed_cursor : option string) (w : World) :
  (iterator (Object := Object) self path cursor limit batch_size w
   = Iterator__init__ self path cursor limit batch_size w /\
   exists it : Iterator Object,
     iterator self path cursor limit batch_size w = (Return it, w) /\
     it_client it = self /\ it_path it = path /\
     it_cursor it = default "" cursor /\
     it_limit it = limit /\ it_batch_size it = batch_size /\
     it_buffer it = [] /\ it_count it = 0) /\
  (feed default_cursor self feed_type feed_cursor w
   = FeedIterator.Feed__init__ default_cursor self feed_type feed_cursor w /\
   exists fd : Feed,
     feed default_cursor self feed_type feed_cursor w = (Return fd, w) /\
     fd_client fd = self /\ fd_type fd = feed_type /\
     fd_cursor fd = default default_cursor feed_cursor).
Proof.
  split; (split; [reflexivity|]); eexists; repeat split.
Qed.

(** ** [Client.close] and [Client.close_async] *)

(** [close_async] closes the session of the client. *)
Lemma close_async_closes (self : Client) (w : World) (ss : Session) :
  sessions w !! _session self = Some ss ->
  exists w', close_async self w = (Return tt, w') /\
    sessions w' !! _session self
      = Some {| headers := headers ss; closed := true |}.
Proof.
  intros H. eexists. split; [reflexivity|]. simpl.
  rewrite list_lookup_alter, H. case_decide; [reflexivity | contradiction].
Qed.

(** C8 fails on the code.  Whatever depth of recursion the interpreter
    allows, the synchronous [close] raises [RecursionError] and leaves
    the world as it was, so that an open session stays open: [close]
    calls itself where it should call [close_async]. *)
Theorem close_never_closes (depth : nat) (self : Client) (w : World) :
  close depth self w = (Raise ExRecursionError, w) /\
  (forall ss, sessions w !! _session self = Some ss -> closed ss = false ->
     sessions (snd (close depth self w)) !! _session self = Some ss /\
     sessions (snd (close_async self w)) !! _session self <> Some ss).
Proof.
  assert (H : close depth self w = (Raise ExRecursionError, w)).
  { induction depth as [|depth IH]; [reflexivity|].
    simpl. apply bind_Raise. exact IH. }
  split; [exact H|]. intros ss Hs Hc. rewrite H. split; [exact Hs|].
  destruct (close_async_closes self w ss Hs) as (w' & Hw & Hl).
  rewrite Hw. simpl. rewrite Hl. intros Heq. injection Heq as Heq.
  rewrite <- Heq in Hc. discriminate Hc.
Qed.

Lemma close_never_closes_witness :
  close 1000 a_client (world_of (Return null_response))
  = (Raise ExRecursionError, world_of (Return null_response)).
Proof.
  exact (proj1 (close_never_closes 1000 a_client
                  (world_of (Return null_response)))).
Defined.

(** ** [Client.__init__] *)

(** C10, amended.  [Client.__init__] raises [ValueError] for an [apikey]
    that is [None] or empty and creates no session; for every other
    [apikey] it succeeds, creates one open session, stores the [apikey]
    and sets the host to the given host when that is a non-empty string,
    and to ['https://www.virustotal.com'] when it is [None] or empty. *)
Theorem init_correct (__version__ : string) (apikey : option string)
    (agent : string) (host : option string) (w : World) :
  (apikey = None \/ apikey = Some "" ->
   __init__ __version__ apikey agent host w
   = (Raise (ExValueError ("Expecting API key, got: " +:+ str_opt apikey)), w)) /\
  (forall k, apikey = Some k -> k <> "" ->
   exists (c : Client) (hdrs : gmap string string),
     __init__ __version__ apikey agent host w
     = (Return c,
        {| sessions := sessions w ++ [{| headers := hdrs; closed := false |}];
           network := network w; log := log w |}) /\
     hdrs !! "X-Apikey" = Some k /\
     _session c = length (sessions w) /\
     _apikey c = k /\
     (forall h, host = Some h -> h <> "" -> _host c = h) /\
     (host = None \/ host = Some "" -> _host c = "https://www.virustotal.com")).
Proof.
  split.
  - intros [-> | ->]; reflexivity.
  - intros k -> Hk. destruct k as [|a k]; [contradiction|].
    eexists. eexists. split; [reflexivity|]. simpl.
    split; [apply lookup_insert_eq|].
    repeat split.
    + intros h -> Hh. destruct h; [contradiction|reflexivity].
    + intros [-> | ->]; reflexivity.
Qed.

Lemma init_correct_witness :
  exists c w',
    __init__ "0.1" (Some "key") "unknown" (Some "http://localhost")
             (world_of (Return null_response)) = (Return c, w') /\
    _apikey c = "key" /\ _host c = "http://localhost".
Proof.
  destruct (proj2 (init_correct "0.1" (Some "key") "unknown"
                     (Some "http://localhost")
                     (world_of (Return null_response)))
              "key" eq_refl)
    as (c & hdrs & H & _ & _ & Hk & Hh & _).
  { discriminate. }
  exists c. eexists. split; [exact H|]. split; [exact Hk|].
  apply Hh; [reflexivity | discriminate].
Defined.

(** C10 as stated fails: with the empty string given as host, the client
    gets the default host, not the given one. *)
Lemma init_empty_host :
  exists c w',
    __init__ "0.1" (Some "key") "unknown" (Some "")
             (world_of (Return null_response)) = (Return c, w') /\
    _host c = "https://www.virustotal.com" /\ _host c <> "".
Proof.
  eexists. eexists. split; [reflexivity|]. split; [reflexivity|].
  discriminate.
Qed.

(** ** The Collection Iterator *)

(** A page returned by [get_json_response_async] is the parsed body of a
    response of status 200 to the one request sent. *)
Lemma get_json_response_async_Return_inv (self : Client) (path : string)
    (params : option (gmap string pyval)) (w w' : World) (page : pyval) :
  get_json_response_async self path params w = (Return page, w') ->
  exists resp : Response,
    network w (length (log w)) {| url := _full_url self path; params := params |}
      = Return resp /\
    (status resp = 200)%Z /\ json resp = Return page /\
    w' = send {| url := _full_url self path; params := params |} w.
Proof.
  destruct (get_async self path params w) as [out w1] eqn:Ha.
  rewrite (get_json_response_async_unfold _ _ _ _ _ _ Ha).
  destruct (get_async_world _ _ _ _ _ _ Ha) as [[-> ->] | [-> [x ->]]];
    [|discriminate].
  destruct (network w (length (log w)) _) as [resp|x] eqn:Hn; simpl;
    [|discriminate].
  destruct (get_error self resp) as [[e|]|x] eqn:He; simpl; try discriminate.
  intros H. injection H as H <-. exists resp.
  repeat split; try assumption. apply (get_error_None self resp He).
Qed.

(** No call of the client changes the network. *)
Lemma get_json_response_async_network (self : Client) (path : string)
    (params : option (gmap string pyval)) (w : World) :
  network (snd (get_json_response_async self path params w)) = network w.
Proof.
  destruct (get_async self path params w) as [out w1] eqn:Ha.
  rewrite (get_json_response_async_unfold _ _ _ _ _ _ Ha). simpl.
  destruct (get_async_world _ _ _ _ _ _ Ha) as [[-> _] | [-> _]]; reflexivity.
Qed.

Module CollectionIteratorFacts.
Import CollectionIterator.
Section facts.

Context {Object : Type}.
Variable Object_from_dict : pyval -> result Object.

Lemma next_unfold (fuel : nat) (it : Iterator Object) (w : World) :
  next Object_from_dict fuel it w =
    match it_buffer it with
    | o :: rest => Some (Return (Some o), pop o rest it, w)
    | [] =>
        if it_terminal it then Some (Return None, it, w)
        else
          match fuel with
          | O => None
          | S fuel' =>
              match get_json_response (it_client it) (it_path it)
                                      (Some (query it)) w with
              | (Raise x, w') => Some (Raise x, it, w')
              | (Return page, w') =>
                  match records ← page_records (it_path it) page;
                        decode_records Object_from_dict records with
                  | Raise x => Some (Raise x, it, w')
                  | Return objs =>
                      next Object_from_dict fuel'
                           (refill objs (page_cursor page) it) w'
                  end
              end
          end
    end.
Proof. destruct fuel; reflexivity. Qed.

(** With a limit set, a fetch asks for no more than what remains to the
    limit. *)
Lemma query_limit (l : nat) (it : Iterator Object) :
  it_limit it = Some l ->
  exists k, query it !! "limit" = Some (PyInt k) /\ (k <= remaining l it)%Z.
Proof.
  intros Hl. unfold query. rewrite Hl.
  destruct (it_batch_size it) as [b|]; eexists;
    (split; [apply lookup_insert_eq | lia]).
Qed.

Lemma page_records_inv (path : string) (page : pyval) (records : list pyval) :
  page_records path page = Return records ->
  exists d : gmap string pyval,
    page = PyDict d /\ d !! "data" = Some (PyList records).
Proof.
  destruct page as [| | | | | |d]; simpl; try discriminate.
  destruct (d !! "data") as [[| | | | |rs|]|] eqn:E; try discriminate.
  intros H. injection H as <-. exists d. split; [reflexivity | exact E].
Qed.

(** Decoding gives one object for each record. *)
Lemma decode_records_length (records : list pyval) :
  forall objs : list Object,
    decode_records Object_from_dict records = Return objs ->
    length objs = length records.
Proof.
  unfold decode_records.
  induction records as [|r records IH]; intros objs; simpl.
  - intros H. injection H as <-. reflexivity.
  - unfold mbind, result_bind.
    destruct (Object_from_dict r) as [o|x]; [|discriminate].
    destruct (mapM Object_from_dict records) as [os|x]; [|discriminate].
    intros H. injection H as <-. simpl. rewrite (IH os eq_refl). reflexivity.
Qed.

(** What one request does on a network that honours the limit: the count
    and the buffer together stay within the limit, and the count goes up
    by one with an object yielded and stays otherwise. *)
Lemma next_within (l : nat) (fuel : nat) :
  forall (it it' : Iterator Object) (w w' : World)
         (r : result (option Object)),
    honours_limit (network w) ->
    it_limit it = Some l ->
    it_count it + length (it_buffer it) <= l ->
    next Object_from_dict fuel it w = Some (r, it', w') ->
    it_limit it' = Some l /\ network w' = network w /\
    it_count it' + length (it_buffer it') <= l /\
    match r with
    | Return (Some _) => it_count it' = S (it_count it)
    | _ => it_count it' = it_count it
    end.
Proof.
  induction fuel as [|fuel IH]; intros it it' w w' r Hh Hl Hc;
    rewrite next_unfold;
    (destruct (it_buffer it) as [|o rest] eqn:Hb;
     [ destruct (it_terminal it);
       [ intros H; injection H as <- <- <-; rewrite Hb; repeat split;
         assumption | ]
     | intros H; injection H as <- <- <-; simpl in *; repeat split;
       [assumption | lia] ]).
  - discriminate.
  - destruct (get_json_response _ _ _ w) as [[page|x] w1] eqn:Hg.
    + unfold get_json_response, run_until_complete in Hg.
      destruct (get_json_response_async_Return_inv _ _ _ _ _ _ Hg)
        as (resp & Hn & H200 & Hj & ->).
      destruct (page_records (it_path it) page) as [records|x] eqn:Hp; simpl;
        [|intros H; injection H as <- <- <-; rewrite Hb; repeat split;
          assumption].
      destruct (decode_records Object_from_dict records) as [objs|x] eqn:Hd;
        [|intros H; injection H as <- <- <-; rewrite Hb; repeat split;
          assumption].
      destruct (page_records_inv _ _ _ Hp) as (d & -> & Hdata).
      destruct (query_limit l it Hl) as (k & Hk & Hle).
      pose proof (Hh _ _ resp d (query it) records k Hn H200 Hj Hdata
                     eq_refl Hk) as Hlen.
      pose proof (decode_records_length _ _ Hd) as Hobjs.
      intros H. apply IH in H.
      * simpl in H. exact H.
      * exact Hh.
      * exact Hl.
      * simpl. rewrite Hb. simpl. unfold remaining in Hle. lia.
    + intros H; injection H as <- <- <-. rewrite Hb.
      pose proof (get_json_response_async_network (it_client it) (it_path it)
                    (Some (query it)) w) as Hnet.
      unfold get_json_response, run_until_complete in Hg.
      rewrite Hg in Hnet. repeat split; assumption.
Qed.

(** The objects yielded from a state on and the count at that state
    together stay within the limit. *)
Lemma consume_within (l : nat) (fuels : list nat) :
  forall (it : Iterator Object) (w : World),
    honours_limit (network w) ->
    it_limit it = Some l ->
    it_count it + length (it_buffer it) <= l ->
    length (consume Object_from_dict fuels it w) + it_count it <= l.
Proof.
  induction fuels as [|fuel fuels IH]; intros it w Hh Hl Hc; simpl; [lia|].
  destruct (next Object_from_dict fuel it w) as [[[r it'] w']|] eqn:E;
    [|simpl; lia].
  destruct (next_within l _ _ _ _ _ _ Hh Hl Hc E) as (Hl' & Hn & Hc' & Hr).
  rewrite <- Hn in Hh.
  specialize (IH it' w' Hh Hl' Hc').
  destruct r as [[o|]|x]; simpl; lia.
Qed.

End facts.
End CollectionIteratorFacts.


(** The network that serves one record a page honours every limit. *)
Lemma one_a_page_honours_limit :
  CollectionIterator.honours_limit one_a_page.
Proof.
  intros n rq resp d p records k Hn H200 Hj Hd Hp Hk.
  unfold one_a_page in Hn. rewrite Hp, Hk in Hn.
  destruct (1 <=? k)%Z eqn:E1.
  - injection Hn as <-. injection Hj as <-. vm_compute in Hd.
    injection Hd as <-. apply Z.leb_le in E1. simpl. lia.
  - destruct (k =? 0)%Z eqn:E0.
    + injection Hn as <-. injection Hj as <-. vm_compute in Hd.
      injection Hd as <-. apply Z.eqb_eq in E0. simpl. lia.
    + injection Hn as <-. discriminate H200.
Qed.


(** On the network that serves one record a page the iterator of limit 2
    yields two objects; the requests after them ask for no record, get
    none and give up at their bound. *)
Example an_iterator_yields :
  obj_id <$> CollectionIterator.consume VTObject_from_dict [3; 3; 3; 3; 3]
               an_iterator one_a_page_world
  = ["a"; "a"].
Proof. vm_compute. reflexivity. Qed.


(** ** The Feed Iterator *)

Module FeedIteratorFacts.
Import FeedIterator.
Section facts.

Context {Object : Type}.
Variable Object_from_dict : pyval -> result Object.
Variable window_path : FeedType -> string -> string.
Variable next_window : string -> string.
Variable not_found : APIError -> bool.

(** A fetch that reports "not found" raises that error after one request. *)
Lemma fetch_not_found (fd : Feed) (w : World) (ss : Session) :
  sessions w !! _session (fd_client fd) = Some ss -> closed ss = false ->
  not_found_at window_path not_found fd w 0 ->
  exists e,
    get_json_response (fd_client fd)
      (window_path (fd_type fd) (fd_cursor fd)) None w
    = (Raise (ExAPIError e), send (window_request window_path fd) w) /\
    not_found e = true.
Proof.
  intros Hs Hc (resp & e & Hn & He & Hnf). exists e. split; [|exact Hnf].
  rewrite Nat.add_0_r in Hn.
  unfold get_json_response, run_until_complete.
  rewrite (get_json_response_async_unfold _ _ _ _ _ _
             (get_async_open _ _ None w ss Hs Hc)).
  unfold window_request in Hn. rewrite Hn. simpl. rewrite He. reflexivity.
Qed.

(** With nothing but "not found" for the attempt and every retry left,
    the retries run out, and the cursor is the one the attempts began at. *)
Lemma attempt_exhausted (left : nat) :
  forall (fd : Feed) (w : World) (ss : Session),
    sessions w !! _session (fd_client fd) = Some ss -> closed ss = false ->
    (forall k, k <= left -> not_found_at window_path not_found fd w k) ->
    exists fd' w',
      attempt Object_from_dict window_path next_window not_found left fd w
      = (Raise ExRetriesExhausted, fd', w') /\
      fd_cursor fd' = fd_cursor fd /\
      log w' = log w ++ replicate (S left) (window_request window_path fd).
Proof.
  induction left as [|left IH]; intros fd w ss Hs Hc Hnf.
  - destruct (fetch_not_found fd w ss Hs Hc (Hnf 0 (Nat.le_refl 0)))
      as (e & Hf & He).
    exists fd, (send (window_request window_path fd) w). simpl. rewrite Hf. simpl.
    rewrite He. repeat split.
  - destruct (fetch_not_found fd w ss Hs Hc (Hnf 0 (Nat.le_0_l _)))
      as (e & Hf & He).
    destruct (IH (retry fd) (send (window_request window_path fd) w) ss Hs Hc)
      as (fd' & w' & Ha & Hcur & Hlog).
    { intros k Hk. destruct (Hnf (S k) (le_n_S _ _ Hk))
        as (resp & e' & Hn & He' & Hnf').
      exists resp, e'. split; [|split; assumption].
      simpl. rewrite length_app. simpl.
      replace (length (log w) + 1 + k) with (length (log w) + S k) by lia.
      exact Hn. }
    exists fd', w'. split; [|split].
    + change (attempt Object_from_dict window_path next_window not_found
                (S left) fd w)
        with (let path := window_path (fd_type fd) (fd_cursor fd) in
              match get_json_response (fd_client fd) path None w with
              | (Return page, w') =>
                  match records ← page_records path page;
                        decode_records Object_from_dict records with
                  | Return batch => (Return batch, advance next_window fd, w')
                  | Raise x => (Raise x, fd, w')
                  end
              | (Raise x, w') =>
                  if reports_not_found not_found x then
                    attempt Object_from_dict window_path next_window
                            not_found left (retry fd) w'
                  else (Raise x, fd, w')
              end).
      simpl. rewrite Hf. simpl. rewrite He. exact Ha.
    + exact Hcur.
    + rewrite Hlog. simpl. rewrite <- app_assoc. reflexivity.
Qed.

End facts.
End FeedIteratorFacts.

(** C5.  A Feed Iterator with the retry budget [retry_budget] whose
    session is open and whose next [retry_budget + 1] fetches of the
    current window all report "not found" raises [RetriesExhaustedError]
    from its "next batch" request, and its window cursor is the one it
    had: the window is not skipped. *)
Theorem feed_retries_exhausted {Object : Type}
    (Object_from_dict : pyval -> result Object) (retry_budget : nat)
    (window_path : FeedType -> string -> string)
    (next_window : string -> string) (not_found : APIError -> bool)
    (fd : Feed) (w : World) (ss : Session) :
  sessions w !! _session (fd_client fd) = Some ss -> closed ss = false ->
  (forall k, k <= retry_budget ->
     FeedIterator.not_found_at window_path not_found fd w k) ->
  exists fd' w',
    FeedIterator.next_batch Object_from_dict retry_budget window_path
      next_window not_found fd w
    = (Raise ExRetriesExhausted, fd', w') /\
    fd_cursor fd' = fd_cursor fd.
Proof.
  intros Hs Hc Hnf. unfold FeedIterator.next_batch.
  destruct (FeedIteratorFacts.attempt_exhausted Object_from_dict window_path
              next_window not_found (retry_budget - fd_retries fd) fd w ss
              Hs Hc)
    as (fd' & w' & Ha & Hcur & _).
  { intros k Hk. apply Hnf. lia. }
  exists fd', w'. split; assumption.
Qed.

Lemma feed_retries_exhausted_witness :
  exists fd' w',
    FeedIterator.next_batch VTObject_from_dict 2 feeds_path
      (fun cursor => cursor) is_NotFoundError a_feed
      (world_of (Return not_found_response))
    = (Raise ExRetriesExhausted, fd', w') /\
    fd_cursor fd' = "202304010930".
Proof.
  apply (feed_retries_exhausted VTObject_from_dict 2 feeds_path
           (fun cursor => cursor) is_NotFoundError a_feed
           (world_of (Return not_found_response))
           {| headers := ∅; closed := false |}).
  - reflexivity.
  - reflexivity.
  - intros k _.
    exists not_found_response,
      (APIError__init__ (PyStr "NotFoundError") (PyStr "Resource not found")).
    split; [reflexivity|]. split; vm_compute; reflexivity.
Defined.

(** With a budget of two retries the exhausted request has fetched the
    window three times. *)
Example a_feed_fetches :
  length (log (snd (FeedIterator.next_batch VTObject_from_dict 2 feeds_path
                      (fun cursor => cursor) is_NotFoundError a_feed
                      (world_of (Return not_found_response))))) = 3.
Proof. vm_compute. reflexivity. Qed.

(** ** The client at work *)

(** A file that exists is fetched and decoded with one request. *)
Example get_object_file :
  exists o w',
    get_object VTObject_from_dict a_client "/files/abc" None
      (world_of (Return file_response)) = (Return o, w') /\
    obj_id o = "abc" /\ obj_type o = "file" /\
    url <$> log w' = ["https://www.virustotal.com/api/v3/files/abc"].
Proof.
  eexists. eexists. split; [vm_compute; reflexivity|].
  repeat split.
Qed.

(** A closed session sends nothing. *)
Example get_after_close_async :
  let w := snd (close_async a_client (world_of (Return file_response))) in
  get a_client "/files/abc" None w
  = (Raise (ExRuntimeError "Session is closed"), w).
Proof. vm_compute. reflexivity. Qed.

(** A body that is not JSON under a status between 400 and 499: the
    exception of [response.json()] is what [get_error] raises. *)
Example get_error_body_not_json :
  get_error a_client
    {| status := 404; json := Raise (ExTransport "ContentTypeError");
       text := "Not Found" |}
  = Raise (ExTransport "ContentTypeError").
Proof. reflexivity. Qed.

(** Status 503 is a server error with the text of the body. *)
Example get_error_unavailable :
  get_error a_client
    {| status := 503; json := Raise (ExTransport "ContentTypeError");
       text := "Service Unavailable" |}
  = Return (Some (APIError__init__ (PyStr "ServerError")
                                  (PyStr "Service Unavailable"))).
Proof. reflexivity. Qed.

(** * Further properties of [vt/client.py] *)

(** ** [APIError.from_dict] and [Client.get_error] *)

(** X1.  [APIError.from_dict] returns an error exactly for a dictionary
    that holds [code]; the error has that code and the [message] of the
    dictionary, [None] when there is none. *)
Theorem from_dict_Return_iff (v : pyval) (e : APIError) :
  from_dict v = Return e <->
  exists (d : gmap string pyval) (c : pyval),
    v = PyDict d /\ d !! "code" = Some c /\
    e = APIError__init__ c (default PyNone (d !! "message")).
Proof.
  unfold from_dict. split.
  - destruct v as [| | | | | |d]; simpl; try discriminate.
    destruct (d !! "code") as [c|] eqn:Hc; simpl; [|discriminate].
    intros H. injection H as <-. exists d, c. repeat split. exact Hc.
  - intros (d & c & -> & Hc & ->). simpl. rewrite Hc. reflexivity.
Qed.

(** X2.  [get_error] returns [None] for the status 200 and for no other
    status. *)
Theorem get_error_None_iff (self : Client) (r : Response) :
  get_error self r = Return None <-> (status r = 200)%Z.
Proof.
  split; [apply get_error_None|].
  intros H. unfold get_error. rewrite H. reflexivity.
Qed.



(** ** The requests of [get_async] and of the functions above it *)

Lemma get_json_response_async_snd (self : Client) (path : string)
    (params : option (gmap string pyval)) (w : World) :
  snd (get_json_response_async self path params w)
  = snd (get_async self path params w).
Proof.
  destruct (get_async self path params w) as [out w'] eqn:E.
  rewrite (get_json_response_async_unfold _ _ _ _ _ _ E). reflexivity.
Qed.

Lemma get_data_async_snd (self : Client) (path : string)
    (params : option (gmap string pyval)) (w : World) :
  snd (get_data_async self path params w)
  = snd (get_async self path params w).
Proof.
  rewrite <- get_json_response_async_snd.
  unfold get_data_async, mbind at 1, Async_bind.
  destruct (get_json_response_async self path params w) as [[page|x] w'];
    [|reflexivity].
  unfold mbind, Async_bind, pure, raise.
  destruct (py_contains "data" page) as [[|]|x]; reflexivity.
Qed.

Lemma get_object_async_snd {Object : Type}
    (Object_from_dict : pyval -> result Object) (self : Client)
    (path : string) (params : option (gmap string pyval)) (w : World) :
  snd (get_object_async Object_from_dict self path params w)
  = snd (get_async self path params w).
Proof.
  rewrite <- get_data_async_snd.
  unfold get_object_async, try_except_ValueError, mbind, Async_bind, pure,
    raise.
  destruct (get_data_async self path params w) as [[data|x] w'].
  - simpl. destruct (Object_from_dict data) as [o|[]]; reflexivity.
  - destruct x; reflexivity.
Qed.

(** A session that is closed, or is none, refuses the request. *)
Lemma get_async_closed (self : Client) (path : string)
    (params : option (gmap string pyval)) (w : World) :
  (forall ss, sessions w !! _session self = Some ss -> closed ss = true) ->
  get_async self path params w = (Raise (ExRuntimeError "Session is closed"), w).
Proof.
  intros H. unfold get_async, session_get.
  destruct (sessions w !! _session self) as [ss|]; [|reflexivity].
  rewrite (H ss eq_refl). reflexivity.
Qed.

(** An exception of [get_json_response_async] is the exception of
    [get_data_async]. *)
Lemma get_data_async_Raise (self : Client) (path : string)
    (params : option (gmap string pyval)) (w w' : World) (x : exn) :
  get_json_response_async self path params w = (Raise x, w') ->
  get_data_async self path params w = (Raise x, w').
Proof. intros H. unfold get_data_async. apply bind_Raise. exact H. Qed.

(** An exception of [get_data_async] that is no [ValueError] is the
    exception of [get_object_async]. *)
Lemma get_object_async_Raise {Object : Type}
    (Object_from_dict : pyval -> result Object) (self : Client)
    (path : string) (params : option (gmap string pyval)) (w w' : World)
    (x : exn) :
  get_data_async self path params w = (Raise x, w') ->
  (forall msg, x <> ExValueError msg) ->
  get_object_async Object_from_dict self path params w = (Raise x, w').
Proof.
  intros H Hx. unfold get_object_async, try_except_ValueError.
  rewrite (bind_Raise _ _ _ _ _ H).
  destruct x; try reflexivity. exfalso. apply (Hx msg). reflexivity.
Qed.

(** X4.  On an open session [get_object_async] sends exactly one request,
    to the full URL of the path and with the given parameters, however the
    call ends: with an object, an API error, a body that does not parse
    or data that do not decode.  It opens and closes no session. *)
Theorem get_object_async_one_request {Object : Type}
    (Object_from_dict : pyval -> result Object) (self : Client)
    (path : string) (params : option (gmap string pyval)) (w : World)
    (ss : Session) :
  sessions w !! _session self = Some ss -> closed ss = false ->
  snd (get_object_async Object_from_dict self path params w)
  = {| sessions := sessions w; network := network w;
       log := log w ++ [{| url := _full_url self path; params := params |}] |}.
Proof.
  intros Hs Hc. rewrite get_object_async_snd.
  rewrite (get_async_open self path params w ss Hs Hc). reflexivity.
Qed.

Lemma get_object_async_one_request_witness :
  log (snd (get_object_async VTObject_from_dict a_client "/files/abc" None
              (world_of (Return not_found_response))))
  = [{| url := "https://www.virustotal.com/api/v3/files/abc"; params := None |}].
Proof.
  rewrite (get_object_async_one_request VTObject_from_dict a_client
             "/files/abc" None (world_of (Return not_found_response))
             {| headers := ∅; closed := false |} eq_refl eq_refl).
  vm_compute. reflexivity.
Defined.

(** X5.  Once [close_async] has run, [get_async], [get_json_response_async],
    [get_data_async] and [get_object_async] all raise
    [RuntimeError('Session is closed')] and send nothing; [get_object_async]
    does not wrap that error. *)
Theorem closed_client_refuses {Object : Type}
    (Object_from_dict : pyval -> result Object) (self : Client)
    (path : string) (params : option (gmap string pyval)) (w : World) :
  let w' := snd (close_async self w) in
  get_async self path params w'
  = (Raise (ExRuntimeError "Session is closed"), w') /\
  get_json_response_async self path params w'
  = (Raise (ExRuntimeError "Session is closed"), w') /\
  get_data_async self path params w'
  = (Raise (ExRuntimeError "Session is closed"), w') /\
  get_object_async Object_from_dict self path params w'
  = (Raise (ExRuntimeError "Session is closed"), w').
Proof.
  intros w'.
  assert (Ha : get_async self path params w'
               = (Raise (ExRuntimeError "Session is closed"), w')).
  { apply get_async_closed. subst w'. simpl. intros ss.
    rewrite list_lookup_alter. case_decide; [|contradiction].
    destruct (sessions w !! _session self); simpl; [|discriminate].
    intros Hss. injection Hss as <-. reflexivity. }
  assert (Hj : get_json_response_async self path params w'
               = (Raise (ExRuntimeError "Session is closed"), w')).
  { rewrite (get_json_response_async_unfold _ _ _ _ _ _ Ha). reflexivity. }
  pose proof (get_data_async_Raise _ _ _ _ _ _ Hj) as Hd.
  repeat split; try assumption.
  apply get_object_async_Raise; [exact Hd | discriminate].
Qed.

(** X6.  An [APIError] that [get_error] finds in the response comes out of
    [get_data_async] and of [get_object_async] as it is, after the one
    request. *)
Theorem api_error_passes_through {Object : Type}
    (Object_from_dict : pyval -> result Object) (self : Client)
    (path : string) (params : option (gmap string pyval)) (w : World)
    (ss : Session) (resp : Response) (e : APIError) :
  sessions w !! _session self = Some ss -> closed ss = false ->
  network w (length (log w)) {| url := _full_url self path; params := params |}
    = Return resp ->
  get_error self resp = Return (Some e) ->
  get_data_async self path params w
  = (Raise (ExAPIError e),
     send {| url := _full_url self path; params := params |} w) /\
  get_object_async Object_from_dict self path params w
  = (Raise (ExAPIError e),
     send {| url := _full_url self path; params := params |} w).
Proof.
  intros Hs Hc Hn He.
  assert (Hj : get_json_response_async self path params w
               = (Raise (ExAPIError e),
                  send {| url := _full_url self path; params := params |} w)).
  { rewrite (get_json_response_async_unfold _ _ _ _ _ _
               (get_async_open self path params w ss Hs Hc)), Hn.
    simpl. rewrite He. reflexivity. }
  pose proof (get_data_async_Raise _ _ _ _ _ _ Hj) as Hd.
  split; [exact Hd|].
  apply get_object_async_Raise; [exact Hd | discriminate].
Qed.

Lemma api_error_passes_through_witness :
  fst (get_object_async VTObject_from_dict a_client "/files/abc" None
         (world_of (Return not_found_response)))
  = Raise (ExAPIError (APIError__init__ (PyStr "NotFoundError")
                                        (PyStr "Resource not found"))).
Proof.
  assert (He : get_error a_client not_found_response
               = Return (Some (APIError__init__ (PyStr "NotFoundError")
                                 (PyStr "Resource not found"))))
    by (vm_compute; reflexivity).
  rewrite (proj2 (api_error_passes_through VTObject_from_dict a_client
                    "/files/abc" None (world_of (Return not_found_response))
                    {| headers := ∅; closed := false |} not_found_response _
                    eq_refl eq_refl eq_refl He)).
  reflexivity.
Defined.

(** X7.  When the request itself fails, the exception of the transport
    comes out of [get_json_response_async] and [get_data_async] as it is,
    and out of [get_object_async] too unless it is a [ValueError]. *)
Theorem transport_error_passes_through {Object : Type}
    (Object_from_dict : pyval -> result Object) (self : Client)
    (path : string) (params : option (gmap string pyval)) (w : World)
    (ss : Session) (x : exn) :
  sessions w !! _session self = Some ss -> closed ss = false ->
  network w (length (log w)) {| url := _full_url self path; params := params |}
    = Raise x ->
  get_json_response_async self path params w
  = (Raise x, send {| url := _full_url self path; params := params |} w) /\
  get_data_async self path params w
  = (Raise x, send {| url := _full_url self path; params := params |} w) /\
  ((forall msg, x <> ExValueError msg) ->
   get_object_async Object_from_dict self path params w
   = (Raise x, send {| url := _full_url self path; params := params |} w)).
Proof.
  intros Hs Hc Hn.
  pose proof (get_json_response_async_transport_error self path params w ss x
                Hs Hc Hn) as Hj.
  pose proof (get_data_async_Raise _ _ _ _ _ _ Hj) as Hd.
  split; [exact Hj|]. split; [exact Hd|].
  intros Hx. apply get_object_async_Raise; assumption.
Qed.

Lemma transport_error_passes_through_witness :
  fst (get_object_async VTObject_from_dict a_client "/files/abc" None
         (world_of (Raise (ExTransport "ClientConnectionError"))))
  = Raise (ExTransport "ClientConnectionError").
Proof.
  destruct (transport_error_passes_through VTObject_from_dict a_client
              "/files/abc" None
              (world_of (Raise (ExTransport "ClientConnectionError")))
              {| headers := ∅; closed := false |}
              (ExTransport "ClientConnectionError") eq_refl eq_refl eq_refl)
    as (_ & _ & H).
  rewrite H; [reflexivity | discriminate].
Defined.

(** ** [Client.get_data_async] and [Client.get_object_async] *)

(** X8.  [get_data_async] returns a value only when the response has
    status 200 and a body that is a JSON object holding [data], and the
    value is that member; the one request has been sent. *)
Theorem get_data_async_Return_inv (self : Client) (path : string)
    (params : option (gmap string pyval)) (w w' : World) (v : pyval) :
  get_data_async self path params w = (Return v, w') ->
  exists (resp : Response) (d : gmap string pyval),
    network w (length (log w)) {| url := _full_url self path; params := params |}
      = Return resp /\
    (status resp = 200)%Z /\ json resp = Return (PyDict d) /\
    d !! "data" = Some v /\
    w' = send {| url := _full_url self path; params := params |} w.
Proof.
  intros H. pose proof (get_data_async_world _ _ _ _ _ _ H) as ->.
  destruct (get_async self path params w) as [out w1] eqn:Ha.
  pose proof (get_json_response_async_unfold _ _ _ _ _ _ Ha) as Hj.
  destruct (get_async_world _ _ _ _ _ _ Ha) as [[-> ->] | [-> [x ->]]].
  - revert H. unfold get_data_async, mbind at 1, Async_bind. rewrite Hj.
    destruct (network w (length (log w)) _) as [resp|x] eqn:Hn; simpl;
      [|discriminate].
    destruct (get_error self resp) as [[e|]|x] eqn:He; simpl;
      try discriminate.
    destruct (json resp) as [page|x] eqn:Hp; [|discriminate].
    unfold mbind at 1, Async_bind, pure.
    destruct page as [| | | |s|l|d]; simpl; try discriminate.
    + destruct (String.index 0 "data" s); discriminate.
    + destruct (existsb (is_str "data") l); discriminate.
    + destruct (d !! "data") as [v'|] eqn:Hd; simpl; [|discriminate].
      intros H. injection H as ->. exists resp, d.
      repeat split; try assumption. apply (get_error_None self resp He).
  - revert H. unfold get_data_async, mbind at 1, Async_bind. rewrite Hj.
    discriminate.
Qed.

Lemma get_data_async_Return_inv_witness :
  exists (resp : Response) (d : gmap string pyval),
    network (world_of (Return file_response))
      (length (log (world_of (Return file_response))))
      {| url := _full_url a_client "/files/abc"; params := None |}
      = Return resp /\
    (status resp = 200)%Z /\ json resp = Return (PyDict d) /\
    d !! "data" = Some (file_record "abc") /\
    send {| url := _full_url a_client "/files/abc"; params := None |}
         (world_of (Return file_response))
    = send {| url := _full_url a_client "/files/abc"; params := None |}
           (world_of (Return file_response)).
Proof.
  apply (get_data_async_Return_inv a_client "/files/abc" None
           (world_of (Return file_response))).
  vm_compute. reflexivity.
Defined.

(** X9.  For a response of status 200 whose body is a JSON object with no
    [data], [get_object_async] catches the [ValueError] of
    [get_data_async] and raises its own around it: the message names the
    path twice. *)
Theorem get_object_async_no_data {Object : Type}
    (Object_from_dict : pyval -> result Object) (self : Client)
    (path : string) (params : option (gmap string pyval)) (w : World)
    (ss : Session) (resp : Response) (d : gmap string pyval) :
  sessions w !! _session self = Some ss -> closed ss = false ->
  network w (length (log w)) {| url := _full_url self path; params := params |}
    = Return resp ->
  (status resp = 200)%Z -> json resp = Return (PyDict d) ->
  d !! "data" = None ->
  get_object_async Object_from_dict self path params w
  = (Raise (ExValueError
       (path +:+ " did not return an object: "
        +:+ path +:+ " does not returns a data field")),
     send {| url := _full_url self path; params := params |} w).
Proof.
  intros Hs Hc Hn H200 Hj Hd.
  unfold get_object_async, try_except_ValueError, mbind at 1, Async_bind.
  rewrite (get_data_async_unfold _ _ _ _ _ _
             (get_json_response_async_200 self path params w ss resp
                (PyDict d) Hs Hc Hn H200 Hj)).
  simpl. rewrite Hd. reflexivity.
Qed.

Lemma get_object_async_no_data_witness :
  fst (get_object_async VTObject_from_dict a_client "/x" None
         (world_of (Return empty_object_response)))
  = Raise (ExValueError
      "/x did not return an object: /x does not returns a data field").
Proof.
  rewrite (get_object_async_no_data VTObject_from_dict a_client "/x" None
             (world_of (Return empty_object_response))
             {| headers := ∅; closed := false |} empty_object_response ∅
             eq_refl eq_refl eq_refl eq_refl eq_refl eq_refl).
  reflexivity.
Defined.

(** X10.  For a response of status 200 whose body is a JSON object with
    [data] that decode, [get_object_async] returns the decoded object
    after the one request. *)
Theorem get_object_async_Return {Object : Type}
    (Object_from_dict : pyval -> result Object) (self : Client)
    (path : string) (params : option (gmap string pyval)) (w : World)
    (ss : Session) (resp : Response) (d : gmap string pyval) (v : pyval)
    (o : Object) :
  sessions w !! _session self = Some ss -> closed ss = false ->
  network w (length (log w)) {| url := _full_url self path; params := params |}
    = Return resp ->
  (status resp = 200)%Z -> json resp = Return (PyDict d) ->
  d !! "data" = Some v -> Object_from_dict v = Return o ->
  get_object_async Object_from_dict self path params w
  = (Return o, send {| url := _full_url self path; params := params |} w).
Proof.
  intros Hs Hc Hn H200 Hj Hd Ho.
  unfold get_object_async, try_except_ValueError, mbind at 1, Async_bind.
  rewrite (get_data_async_unfold _ _ _ _ _ _
             (get_json_response_async_200 self path params w ss resp
                (PyDict d) Hs Hc Hn H200 Hj)).
  simpl. rewrite Hd. simpl. unfold pure. rewrite Ho. reflexivity.
Qed.

Lemma get_object_async_Return_witness :
  fst (get_object_async VTObject_from_dict a_client "/files/abc" None
         (world_of (Return file_response)))
  = Return {| obj_id := "abc"; obj_type := "file";
              obj_attributes := ∅; obj_relationships := ∅ |}.
Proof.
  pose (data := PyDict (<["id" := PyStr "abc"]> {["type" := PyStr "file"]})).
  assert (Hd : ({["data" := data]} : gmap string pyval) !! "data" = Some data)
    by (vm_compute; reflexivity).
  assert (Ho : VTObject_from_dict data
               = Return {| obj_id := "abc"; obj_type := "file";
                           obj_attributes := ∅; obj_relationships := ∅ |})
    by (vm_compute; reflexivity).
  rewrite (get_object_async_Return VTObject_from_dict a_client "/files/abc"
             None (world_of (Return file_response))
             {| headers := ∅; closed := false |} file_response
             {["data" := data]} data _ eq_refl eq_refl eq_refl eq_refl
             eq_refl Hd Ho).
  reflexivity.
Defined.

(** ** [Client.close_async] *)

(** X11.  [close_async] touches the session of its client and nothing
    else: every other session, the network and the log of requests are
    as before, and no session appears or goes. *)
Theorem close_async_frame (self : Client) (w : World) (j : nat) :
  j <> _session self ->
  sessions (snd (close_async self w)) !! j = sessions w !! j /\
  length (sessions (snd (close_async self w))) = length (sessions w) /\
  log (snd (close_async self w)) = log w /\
  network (snd (close_async self w)) = network w.
Proof.
  intros Hj. simpl. repeat split.
  - rewrite list_lookup_alter. case_decide; [congruence | reflexivity].
  - apply length_alter.
Qed.

Lemma close_async_frame_witness :
  sessions (snd (close_async a_client two_sessions)) !! 1
  = Some {| headers := ∅; closed := false |}.
Proof.
  rewrite (proj1 (close_async_frame a_client two_sessions 1
                    ltac:(discriminate))).
  reflexivity.
Defined.

(** X12.  Closing twice is closing once: the second [close_async] returns
    and leaves the world of the first. *)
Theorem close_async_idempotent (self : Client) (w : World) :
  close_async self (snd (close_async self w))
  = (Return tt, snd (close_async self w)).
Proof.
  unfold close_async, session_close. simpl. f_equal. f_equal.
  apply list_eq. intros i. rewrite list_lookup_alter.
  case_decide as Hi; [|reflexivity]. subst i.
  rewrite list_lookup_alter. case_decide; [|contradiction].
  destruct (sessions w !! _session self); reflexivity.
Qed.

(** ** [Client.__init__] *)

(** What a successful [__init__] has done. *)
Lemma init_Return_inv (__version__ : string) (apikey : option string)
    (agent : string) (host : option string) (w w1 : World) (c : Client) :
  __init__ __version__ apikey agent host w = (Return c, w1) ->
  exists k,
    apikey = Some k /\ k <> "" /\
    c = {| _host := str_or host _API_HOST; _apikey := k; _agent := agent;
           _session := length (sessions w) |} /\
    w1 = {| sessions := sessions w ++
              [{| headers := <["X-Apikey" := k]>
                               (<["Accept-Encoding" := "gzip"]>
                                  {["User-Agent" :=
                                      _USER_AGENT_FMT agent __version__]});
                  closed := false |}];
            network := network w; log := log w |}.
Proof.
  destruct apikey as [[|a k]|]; try discriminate.
  intros H. injection H as <- <-. exists (String a k).
  repeat split. discriminate.
Qed.

(** X13.  A client that [__init__] has just made can send: its session is
    open, and [get_async] sends the request and hands back the response
    of the network. *)
Theorem init_then_get_async (__version__ : string) (apikey : option string)
    (agent : string) (host : option string) (w w1 : World) (c : Client)
    (path : string) (params : option (gmap string pyval)) :
  __init__ __version__ apikey agent host w = (Return c, w1) ->
  get_async c path params w1
  = (network w (length (log w)) {| url := _full_url c path; params := params |},
     send {| url := _full_url c path; params := params |} w1).
Proof.
  intros H. destruct (init_Return_inv _ _ _ _ _ _ _ H) as (k & _ & _ & -> & ->).
  unfold get_async, session_get. simpl.
  rewrite lookup_app_r by reflexivity. rewrite Nat.sub_diag. reflexivity.
Qed.

Lemma init_then_get_async_witness :
  fst (get_async
         {| _host := _API_HOST; _apikey := "key"; _agent := "unknown";
            _session := 1 |}
         "/files/abc" None
         (snd (__init__ "0.1" (Some "key") "unknown" None
                 (world_of (Return file_response)))))
  = Return file_response.
Proof.
  exact (f_equal fst
           (init_then_get_async "0.1" (Some "key") "unknown" None
              (world_of (Return file_response)) _ _ "/files/abc" None
              eq_refl)).
Defined.

(** X14.  [__init__] gives every client a session of its own and leaves
    the sessions there are alone: after a second client is made, closing
    the first leaves the second open, and closing the second leaves the
    first open. *)
Theorem init_sessions_apart (v1 v2 : string) (apikey1 apikey2 : option string)
    (agent1 agent2 : string) (host1 host2 : option string)
    (w w1 w2 : World) (c1 c2 : Client) :
  __init__ v1 apikey1 agent1 host1 w = (Return c1, w1) ->
  __init__ v2 apikey2 agent2 host2 w1 = (Return c2, w2) ->
  _session c1 <> _session c2 /\
  (exists ss, sessions (snd (close_async c1 w2)) !! _session c2 = Some ss /\
              closed ss = false) /\
  (exists ss, sessions (snd (close_async c2 w2)) !! _session c1 = Some ss /\
              closed ss = false).
Proof.
  intros H1 H2.
  destruct (init_Return_inv _ _ _ _ _ _ _ H1) as (k1 & _ & _ & -> & ->).
  destruct (init_Return_inv _ _ _ _ _ _ _ H2) as (k2 & _ & _ & -> & ->).
  simpl. rewrite length_app. simpl.
  split; [lia|]. split.
  - eexists. rewrite list_lookup_alter. case_decide; [lia|].
    rewrite lookup_app_r by (rewrite length_app; simpl; lia).
    rewrite length_app. simpl.
    replace (length (sessions w) + 1 - (length (sessions w) + 1)) with 0
      by lia.
    split; reflexivity.
  - eexists. rewrite list_lookup_alter. case_decide; [lia|].
    rewrite lookup_app_l by (rewrite length_app; simpl; lia).
    rewrite lookup_app_r by reflexivity. rewrite Nat.sub_diag.
    split; reflexivity.
Qed.

Lemma init_sessions_apart_witness :
  1 <> 2 /\
  (exists ss,
     sessions (snd (close_async
                      {| _host := _API_HOST; _apikey := "one";
                         _agent := "unknown"; _session := 1 |}
                      (snd (__init__ "0.1" (Some "two") "unknown" None
                              (snd (__init__ "0.1" (Some "one") "unknown" None
                                      (world_of (Return file_response))))))))
       !! 2 = Some ss /\ closed ss = false) /\
  (exists ss,
     sessions (snd (close_async
                      {| _host := _API_HOST; _apikey := "two";
                         _agent := "unknown"; _session := 2 |}
                      (snd (__init__ "0.1" (Some "two") "unknown" None
                              (snd (__init__ "0.1" (Some "one") "unknown" None
                                      (world_of (Return file_response))))))))
       !! 1 = Some ss /\ closed ss = false).
Proof.
  exact (init_sessions_apart "0.1" "0.1" (Some "one") (Some "two")
           "unknown" "unknown" None None
           (world_of (Return file_response)) _ _ _ _ eq_refl eq_refl).
Defined.

(** X15.  The session [__init__] opens carries the API key and asks for
    gzip twice over: [Accept-Encoding] is [gzip], and the [User-Agent]
    is the agent, the version and, last, the word [gzip]. *)
Theorem init_headers (__version__ : string) (apikey : option string)
    (agent : string) (host : option string) (w w1 : World) (c : Client) :
  __init__ __version__ apikey agent host w = (Return c, w1) ->
  exists ss,
    sessions w1 !! _session c = Some ss /\ closed ss = false /\
    headers ss !! "X-Apikey" = apikey /\
    headers ss !! "Accept-Encoding" = Some "gzip" /\
    headers ss !! "User-Agent"
    = Some (agent +:+ "; vtpy " +:+ __version__ +:+ "; gzip") /\
    size (headers ss) = 3.
Proof.
  intros H. destruct (init_Return_inv _ _ _ _ _ _ _ H) as (k & -> & _ & -> & ->).
  eexists. simpl. rewrite lookup_app_r by reflexivity. rewrite Nat.sub_diag.
  split; [reflexivity|]. simpl. repeat split.
Qed.

Lemma init_headers_witness :
  exists ss,
    sessions (snd (__init__ "0.1" (Some "key") "me" None
                     (world_of (Return file_response)))) !! 1 = Some ss /\
    closed ss = false /\
    headers ss !! "X-Apikey" = Some "key" /\
    headers ss !! "Accept-Encoding" = Some "gzip" /\
    headers ss !! "User-Agent" = Some ("me" +:+ "; vtpy " +:+ "0.1" +:+ "; gzip") /\
    size (headers ss) = 3.
Proof.
  exact (init_headers "0.1" (Some "key") "me" None
           (world_of (Return file_response)) _ _ eq_refl).
Defined.

(** ** [Client._full_url] again *)

(** X16.  For a client whose host starts with ["http"], as the default
    host does, a full URL is its own full URL: [_full_url] prepends host
    and prefix at most once, however often it is applied. *)
Theorem full_url_idempotent (self : Client) (path : string) :
  (exists rest, _host self = "http" +:+ rest) ->
  _full_url self (_full_url self path) = _full_url self path.
Proof.
  intros [rest Hh].
  assert (Hp : String.prefix "http" (_full_url self path) = true).
  { unfold _full_url. destruct (String.prefix "http" path) eqn:E; [exact E|].
    apply prefix_app. rewrite Hh.
    exists (rest +:+ _ENDPOINT_PREFIX +:+ path). reflexivity. }
  unfold _full_url at 1. rewrite Hp. reflexivity.
Qed.

Lemma full_url_idempotent_witness :
  _full_url a_client (_full_url a_client "/files/abc")
  = _full_url a_client "/files/abc".
Proof.
  apply (full_url_idempotent a_client "/files/abc").
  exists "s://www.virustotal.com". reflexivity.
Defined.

(** ** [with] and [async with] over a client *)

Lemma close_raises (depth : nat) (self : Client) (w : World) :
  close depth self w = (Raise ExRecursionError, w).
Proof.
  induction depth as [|depth IH]; [reflexivity|].
  simpl. apply bind_Raise. exact IH.
Qed.

(** X17.  [async with client as c: body] ends as the body ends, with its
    value or with its exception, which [__aexit__] does not suppress, and
    leaves the world of the body with the session of the client closed. *)
Theorem async_with_closes {A : Type} (mgr : Client)
    (body : Client -> Async A) (w w2 : World) (out : result A)
    (ss : Session) :
  body mgr w = (out, w2) ->
  sessions w2 !! _session mgr = Some ss ->
  async_with mgr body w
  = (match out with
     | Return a => Return (Some a)
     | Raise x => Raise x
     end, snd (close_async mgr w2)) /\
  sessions (snd (close_async mgr w2)) !! _session mgr
  = Some {| headers := headers ss; closed := true |} /\
  log (snd (close_async mgr w2)) = log w2.
Proof.
  intros Hb Hs. split; [|split; [|reflexivity]].
  - unfold async_with, with_statement, __aenter__. simpl. rewrite Hb.
    destruct out as [a|x]; reflexivity.
  - destruct (close_async_closes mgr w2 ss Hs) as (w3 & Hc & Hl).
    rewrite Hc. exact Hl.
Qed.

Lemma async_with_closes_witness :
  async_with a_client (fun c => get_data_async c "/files/abc" None)
    (world_of (Return not_found_response))
  = (Raise (ExAPIError (APIError__init__ (PyStr "NotFoundError")
                                         (PyStr "Resource not found"))),
     snd (close_async a_client
            (send {| url := _full_url a_client "/files/abc"; params := None |}
                  (world_of (Return not_found_response))))).
Proof.
  destruct (async_with_closes a_client
              (fun c => get_data_async c "/files/abc" None)
              (world_of (Return not_found_response))
              (send {| url := _full_url a_client "/files/abc"; params := None |}
                    (world_of (Return not_found_response)))
              (Raise (ExAPIError (APIError__init__ (PyStr "NotFoundError")
                                    (PyStr "Resource not found"))))
              {| headers := ∅; closed := false |})
    as (H & _).
  - vm_compute. reflexivity.
  - reflexivity.
  - exact H.
Defined.

(** X18.  The synchronous [with client as c: body] never closes the
    session.  [__exit__] takes no argument after [self], so the three
    arguments of the [with] statement make it raise [TypeError], in
    place of the value or the exception of the body and in the world the
    body left; called with no argument, [__exit__] raises the
    [RecursionError] of [close]. *)
Theorem with_never_closes {A : Type} (depth : nat) (mgr : Client)
    (body : Client -> Async A) (w : World) :
  with_ depth mgr body w = (Raise ExTypeError, snd (body mgr w)) /\
  __exit__ depth mgr [] w = (Raise ExRecursionError, w) /\
  (forall args, exists x, __exit__ depth mgr args w = (Raise x, w)).
Proof.
  split; [|split].
  - unfold with_, with_statement, __enter__. simpl.
    destruct (body mgr w) as [[a|x] w2]; reflexivity.
  - unfold __exit__, mbind, Async_bind, pure. simpl.
    rewrite close_raises. reflexivity.
  - intros [|a args].
    + exists ExRecursionError. unfold __exit__, mbind, Async_bind, pure. simpl.
      rewrite close_raises. reflexivity.
    + exists ExTypeError. reflexivity.
Qed.
